(** * Synapse: calendar grid, filters, reschedule, reports and change feed

    A shallow embedding of the scheduling core of the surgery dashboard
    (the [CalendarView], [ReportsView], [SurgeryModal] and [App] components)
    together with the part of the JavaScript platform it calls: the
    [Date] object, template strings with [padStart], and objects used as
    maps. *)

From Stdlib Require Import ZArith Lia Bool List Ascii String.
From stdpp Require Import base numbers option list strings pretty gmap sets.

Local Open Scope Z_scope.

(** ** The [Date] object of the platform

    Time values are milliseconds since the epoch, as in ECMA-262 section
    21.4.1; the abstract operations below keep the names of the
    standard.  Two restrictions of the model: the local time zone is a
    fixed offset [tza] (no daylight-saving transitions), and time values
    are unbounded integers (the [TimeClip] limit of 8.64e15 ms is not
    represented).  An invalid date (time value NaN) is [None]. *)

Module JsDate.

Definition msPerDay : Z := 86400000.
Definition msPerHour : Z := 3600000.
Definition msPerMinute : Z := 60000.
Definition msPerSecond : Z := 1000.

Definition Day (t : Z) : Z := t / msPerDay.
Definition TimeWithinDay (t : Z) : Z := t mod msPerDay.

Definition DaysInYear (y : Z) : Z :=
  if negb (y mod 4 =? 0) then 365
  else if negb (y mod 100 =? 0) then 366
  else if negb (y mod 400 =? 0) then 365
  else 366.

Definition DayFromYear (y : Z) : Z :=
  365 * (y - 1970) + (y - 1969) / 4 - (y - 1901) / 100 + (y - 1601) / 400.

(** [YearFromTime] is "the largest integer y such that TimeFromYear(y) <= t";
    it is computed from an estimate that is off by at most one year. *)
Definition YearFromDay (d : Z) : Z :=
  let y := 1970 + (d * 400) / 146097 in
  if d <? DayFromYear y then y - 1
  else if DayFromYear (y + 1) <=? d then y + 1
  else y.

Definition YearFromTime (t : Z) : Z := YearFromDay (Day t).

Definition InLeapYear (t : Z) : Z :=
  if DaysInYear (YearFromTime t) =? 366 then 1 else 0.

Definition DayWithinYear (t : Z) : Z := Day t - DayFromYear (YearFromTime t).

(** Number of days before month [m] (0 = January) in a year with leap
    flag [leap]. *)
Definition monthStart (m leap : Z) : Z :=
  match m with
  | 0 => 0
  | 1 => 31
  | 2 => 59 + leap
  | 3 => 90 + leap
  | 4 => 120 + leap
  | 5 => 151 + leap
  | 6 => 181 + leap
  | 7 => 212 + leap
  | 8 => 243 + leap
  | 9 => 273 + leap
  | 10 => 304 + leap
  | 11 => 334 + leap
  | _ => 365 + leap
  end.

Definition monthOfYearDay (dwy leap : Z) : Z :=
  if dwy <? 31 then 0
  else if dwy <? 59 + leap then 1
  else if dwy <? 90 + leap then 2
  else if dwy <? 120 + leap then 3
  else if dwy <? 151 + leap then 4
  else if dwy <? 181 + leap then 5
  else if dwy <? 212 + leap then 6
  else if dwy <? 243 + leap then 7
  else if dwy <? 273 + leap then 8
  else if dwy <? 304 + leap then 9
  else if dwy <? 334 + leap then 10
  else 11.

Definition MonthFromTime (t : Z) : Z :=
  monthOfYearDay (DayWithinYear t) (InLeapYear t).

Definition DateFromTime (t : Z) : Z :=
  DayWithinYear t - monthStart (MonthFromTime t) (InLeapYear t) + 1.

Definition WeekDay (t : Z) : Z := (Day t + 4) mod 7.

Definition HourFromTime (t : Z) : Z := (t / msPerHour) mod 24.
Definition MinFromTime (t : Z) : Z := (t / msPerMinute) mod 60.
Definition SecFromTime (t : Z) : Z := (t / msPerSecond) mod 60.
Definition msFromTime (t : Z) : Z := t mod msPerSecond.

Definition MakeTime (hour min sec ms : Z) : Z :=
  hour * msPerHour + min * msPerMinute + sec * msPerSecond + ms.

Definition leapOfYear (y : Z) : Z := if DaysInYear y =? 366 then 1 else 0.

Definition MakeDay (year month date : Z) : Z :=
  let ym := year + month / 12 in
  let mn := month mod 12 in
  DayFromYear ym + monthStart mn (leapOfYear ym) + date - 1.

Definition MakeDate (day time : Z) : Z := day * msPerDay + time.

(** Days of month [m] (0 = January) of year [y]. *)
Definition DaysInMonth (y m : Z) : Z :=
  monthStart (m + 1) (leapOfYear y) - monthStart m (leapOfYear y).

(** *** Local time: a fixed offset [tza] (LocalTZA, in ms) *)

Definition LocalTime (tza t : Z) : Z := t + tza.
Definition UTC (tza t : Z) : Z := t - tza.

(** Getters of a valid date with time value [t]. *)
Definition getFullYear (tza t : Z) : Z := YearFromTime (LocalTime tza t).
Definition getMonth (tza t : Z) : Z := MonthFromTime (LocalTime tza t).
Definition getDate (tza t : Z) : Z := DateFromTime (LocalTime tza t).
Definition getDay (tza t : Z) : Z := WeekDay (LocalTime tza t).
Definition getHours (tza t : Z) : Z := HourFromTime (LocalTime tza t).
Definition getMinutes (tza t : Z) : Z := MinFromTime (LocalTime tza t).
Definition getSeconds (tza t : Z) : Z := SecFromTime (LocalTime tza t).
Definition getMilliseconds (tza t : Z) : Z := msFromTime (LocalTime tza t).

(** [new Date(year, month, date)]: local midnight; a year from 0 to 99 is
    taken as 1900 + year. *)
Definition fullYear (year : Z) : Z :=
  if (0 <=? year) && (year <=? 99) then 1900 + year else year.

Definition Date_ymd (tza year month date : Z) : Z :=
  UTC tza (MakeDate (MakeDay (fullYear year) month date) (MakeTime 0 0 0 0)).

(** [d.setHours(hour, min, sec)]: the milliseconds are kept. *)
Definition setHours3 (tza t hour min sec : Z) : Z :=
  let lt := LocalTime tza t in
  UTC tza (MakeDate (Day lt) (MakeTime hour min sec (msFromTime lt))).

(** [d.setHours(hour, min, sec, ms)]. *)
Definition setHours4 (tza t hour min sec ms : Z) : Z :=
  UTC tza (MakeDate (Day (LocalTime tza t)) (MakeTime hour min sec ms)).

(** [d.setDate(date)]. *)
Definition setDate (tza t date : Z) : Z :=
  let lt := LocalTime tza t in
  UTC tza (MakeDate (MakeDay (YearFromTime lt) (MonthFromTime lt) date)
                    (TimeWithinDay lt)).

(** *** Numbers in strings *)

(** [String(x)] for an integer or NaN. *)
Definition String_of (x : option Z) : string :=
  match x with
  | Some n => pretty n
  | None => "NaN"
  end.

Fixpoint repeatChar (n : nat) (c : ascii) : string :=
  match n with
  | O => EmptyString
  | S n' => String c (repeatChar n' c)
  end.

(** [s.padStart(n, c)] for a one-character filler. *)
Definition padStart (n : nat) (c : ascii) (s : string) : string :=
  repeatChar (n - String.length s) c +:+ s.

Definition pad0 (n : nat) (x : Z) : string := padStart n "0"%char (pretty x).

(** [d.toISOString()] of a valid date: YYYY-MM-DDTHH:mm:ss.sssZ, with the
    expanded year of six digits outside 0..9999. *)
Definition isoYear (y : Z) : string :=
  if (0 <=? y) && (y <=? 9999) then pad0 4 y
  else if y <? 0 then "-" +:+ pad0 6 (- y)
  else "+" +:+ pad0 6 y.

Definition toISOString (t : Z) : string :=
  isoYear (YearFromTime t) +:+ "-" +:+ pad0 2 (MonthFromTime t + 1) +:+ "-"
  +:+ pad0 2 (DateFromTime t) +:+ "T" +:+ pad0 2 (HourFromTime t) +:+ ":"
  +:+ pad0 2 (MinFromTime t) +:+ ":" +:+ pad0 2 (SecFromTime t) +:+ "."
  +:+ pad0 3 (msFromTime t) +:+ "Z".

(** The character of a decimal digit. *)
Definition digitChar (k : Z) : ascii := ascii_of_N (Z.to_N (48 + k)).

Definition twoDigits (n : Z) : string :=
  String (digitChar (n / 10)) (String (digitChar (n mod 10)) EmptyString).

Definition fourDigits (n : Z) : string :=
  String (digitChar (n / 1000)) (String (digitChar (n / 100 mod 10))
    (twoDigits (n mod 100))).


(** *** [Date.parse] on the date-time string format of the standard

    YYYY[-MM[-DD]][THH:mm[:ss[.s+]]][Z|+HH:mm|-HH:mm], with +YYYYYY and
    -YYYYYY as expanded years.  Without an offset a date-only form is
    UTC and a date-time form is local time.  Any other string is left to
    the implementation by the standard; here it is an invalid date. *)

Definition digitVal (c : ascii) : option Z :=
  let n := Z.of_N (N_of_ascii c) in
  if (48 <=? n) && (n <=? 57) then Some (n - 48) else None.

Fixpoint digits (n : nat) (acc : Z) (s : string) : option (Z * string) :=
  match n with
  | O => Some (acc, s)
  | S n' =>
      match s with
      | String c r => d ← digitVal c; digits n' (10 * acc + d) r
      | EmptyString => None
      end
  end.

(** The digits at the head of [s], at most three of them kept as
    milliseconds (weights 100, 10, 1). *)
Fixpoint fraction (w acc : Z) (s : string) : Z * string :=
  match s with
  | String c r =>
      match digitVal c with
      | Some d => fraction (w / 10) (acc + w * d) r
      | None => (acc, s)
      end
  | EmptyString => (acc, s)
  end.

Definition parseYear (s : string) : option (Z * string) :=
  match s with
  | String "+"%char r => digits 6 0 r
  | String "-"%char r => '(y, r') ← digits 6 0 r; if y =? 0 then None else Some (- y, r')
  | _ => digits 4 0 s
  end.

Definition parseMonthDay (s : string) : option (Z * Z * string) :=
  match s with
  | String "-"%char r =>
      '(mo, r1) ← digits 2 0 r;
      match r1 with
      | String "-"%char r2 => '(d, r3) ← digits 2 0 r2; Some (mo, d, r3)
      | _ => Some (mo, 1, r1)
      end
  | _ => Some (1, 1, s)
  end.

Definition parseSeconds (s : string) : option (Z * Z * string) :=
  match s with
  | String ":"%char r =>
      '(sec, r1) ← digits 2 0 r;
      match r1 with
      | String "."%char (String c r2) =>
          _ ← digitVal c;
          let '(ms, r3) := fraction 100 0 (String c r2) in Some (sec, ms, r3)
      | _ => Some (sec, 0, r1)
      end
  | _ => Some (0, 0, s)
  end.

(** The time of day in ms, if any, and the rest of the string. *)
Definition parseTime (s : string) : option (option Z * string) :=
  match s with
  | String "T"%char r =>
      '(h, r1) ← digits 2 0 r;
      match r1 with
      | String ":"%char r2 =>
          '(mi, r3) ← digits 2 0 r2;
          '(sec, ms, r4) ← parseSeconds r3;
          if (h <=? 23) && (mi <=? 59) && (sec <=? 59)
             || (h =? 24) && (mi =? 0) && (sec =? 0) && (ms =? 0)
          then Some (Some (MakeTime h mi sec ms), r4)
          else None
      | _ => None
      end
  | _ => Some (None, s)
  end.

(** The offset from UTC in ms, if one is written; the string ends there. *)
Definition parseOffset (s : string) : option (option Z) :=
  match s with
  | EmptyString => Some None
  | String "Z"%char EmptyString => Some (Some 0)
  | String sign r =>
      '(h, r1) ← digits 2 0 r;
      match r1 with
      | String ":"%char r2 =>
          '(mi, r3) ← digits 2 0 r2;
          match r3 with
          | EmptyString =>
              if (h <=? 23) && (mi <=? 59) then
                if Ascii.eqb sign "+"%char then Some (Some (h * msPerHour + mi * msPerMinute))
                else if Ascii.eqb sign "-"%char then Some (Some (- (h * msPerHour + mi * msPerMinute)))
                else None
              else None
          | _ => None
          end
      | _ => None
      end
  end.

Definition Date_parse (tza : Z) (s : string) : option Z :=
  '(y, r) ← parseYear s;
  '(mo, d, r1) ← parseMonthDay r;
  '(tod, r2) ← parseTime r1;
  off ← parseOffset r2;
  if (1 <=? mo) && (mo <=? 12) && (1 <=? d) && (d <=? 31) then
    match tod, off with
    | None, None => Some (MakeDate (MakeDay y (mo - 1) d) 0)
    | None, Some _ => None
    | Some time, None => Some (UTC tza (MakeDate (MakeDay y (mo - 1) d) time))
    | Some time, Some o => Some (MakeDate (MakeDay y (mo - 1) d) time - o)
    end
  else None.

End JsDate.

(** ** Local time in a zone whose offset changes

    [setDate] in the state of the local-storage calendar is read here in
    a zone with daylight saving: the offset depends on the time value,
    and the UTC time value of a local time is the choice of the
    implementation where that local time is skipped or repeated. *)

Module Zoned.
Import JsDate.

(** A zone: the offset of local time at a UTC time value, and the UTC
    time value the implementation gives to a local time value. *)
Record Zone := {
  LocalTZA : Z → Z;
  UTC_of : Z → Z
}.

Definition fixedZone (tza : Z) : Zone :=
  {| LocalTZA := fun _ => tza; UTC_of := fun t => t - tza |}.

Definition LocalTime (z : Zone) (t : Z) : Z := t + LocalTZA z t.

Definition getFullYear (z : Zone) (t : Z) : Z := YearFromTime (LocalTime z t).
Definition getMonth (z : Zone) (t : Z) : Z := MonthFromTime (LocalTime z t).
Definition getDate (z : Zone) (t : Z) : Z := DateFromTime (LocalTime z t).
Definition getDay (z : Zone) (t : Z) : Z := WeekDay (LocalTime z t).
Definition getHours (z : Zone) (t : Z) : Z := HourFromTime (LocalTime z t).
Definition getMinutes (z : Zone) (t : Z) : Z := MinFromTime (LocalTime z t).

(** [new Date(year, month, date)] *)
Definition Date_ymd (z : Zone) (year month date : Z) : Z :=
  UTC_of z (MakeDate (MakeDay (fullYear year) month date) (MakeTime 0 0 0 0)).

(** [d.setDate(date)] *)
Definition setDate (z : Zone) (t date : Z) : Z :=
  let lt := LocalTime z t in
  UTC_of z (MakeDate (MakeDay (YearFromTime lt) (MonthFromTime lt) date)
                     (TimeWithinDay lt)).

(** Central European time around the change of 31 March 2024: one hour
    east of Greenwich before 01:00 UTC of that day, two hours after; the
    local hour from 02:00 is skipped and read with the earlier offset. *)
Definition exampleZone : Zone :=
  {| LocalTZA := fun t => if t <? 1711846800000 then 3600000 else 7200000;
     UTC_of := fun t => if t <? 1711854000000 then t - 3600000 else t - 7200000 |}.

End Zoned.

(** ** Data model (index.tsx and its four-state successor)

    [null] and [undefined] are [None].  A participant list or a fee map
    that may be missing is read through [|| []] or [|| {}] at every use,
    so it is represented by the list or the map itself.  Money amounts
    are exact integers. *)

Inductive AuthStatus := Pendente | Liberado | Recusado.
Inductive SurgeryStatus := Solicitada | Agendada | Realizada | Cancelada.

Definition authName (a : AuthStatus) : string :=
  match a with
  | Pendente => "Pendente"
  | Liberado => "Liberado"
  | Recusado => "Recusado"
  end.

Definition statusName (s : SurgeryStatus) : string :=
  match s with
  | Solicitada => "Solicitada"
  | Agendada => "Agendada"
  | Realizada => "Realizada"
  | Cancelada => "Cancelada"
  end.

Global Instance AuthStatus_eq_dec : EqDecision AuthStatus.
Proof. solve_decision. Defined.
Global Instance SurgeryStatus_eq_dec : EqDecision SurgeryStatus.
Proof. solve_decision. Defined.

Record Doctor := {
  doctor_id : string;
  name : string;
  email : string;
  color : string;
  is_admin : bool
}.

Record Hospital := {
  hospital_key : Z;
  hospital_name : string
}.

Record Surgery := {
  id : Z;
  patient_name : string;
  main_surgeon_id : string;
  participating_ids : list string;
  date_time : option string;
  hospital_id : Z;
  insurance_id : Z;
  auth_status : AuthStatus;
  surgery_status : SurgeryStatus;
  fees : gmap string Z;
  material_cost : Z;
  notes : string;
  pre_op_xray_path : option string;
  post_op_xray_path : option string
}.

Definition set_date_time (v : option string) (s : Surgery) : Surgery :=
  {| id := id s; patient_name := patient_name s;
     main_surgeon_id := main_surgeon_id s;
     participating_ids := participating_ids s; date_time := v;
     hospital_id := hospital_id s; insurance_id := insurance_id s;
     auth_status := auth_status s; surgery_status := surgery_status s;
     fees := fees s; material_cost := material_cost s; notes := notes s;
     pre_op_xray_path := pre_op_xray_path s;
     post_op_xray_path := post_op_xray_path s |}.

Definition set_surgery_status (v : SurgeryStatus) (s : Surgery) : Surgery :=
  {| id := id s; patient_name := patient_name s;
     main_surgeon_id := main_surgeon_id s;
     participating_ids := participating_ids s; date_time := date_time s;
     hospital_id := hospital_id s; insurance_id := insurance_id s;
     auth_status := auth_status s; surgery_status := v;
     fees := fees s; material_cost := material_cost s; notes := notes s;
     pre_op_xray_path := pre_op_xray_path s;
     post_op_xray_path := post_op_xray_path s |}.

(** [new Date(v)] for a string or [null]: [null] converts to the number 0. *)
Definition Date_of (tza : Z) (v : option string) : option Z :=
  match v with
  | Some s => JsDate.Date_parse tza s
  | None => Some 0
  end.

(** [users.find(d => String(d.id) === String(id))] *)
Definition getUserById (i : string) (users : list Doctor) : option Doctor :=
  List.find (fun d => bool_decide (doctor_id d = i)) users.

(** ** CalendarView *)

Module CalendarView.
Import JsDate.

(** The month part of the [calendarGrid] memo: [null] padding, then one
    [Date] per day. *)
Definition calendarGrid (tza currentDate : Z) : list (option Z) :=
  let year := getFullYear tza currentDate in
  let month := getMonth tza currentDate in
  let firstDayOfMonth := getDay tza (Date_ymd tza year month 1) in
  let daysInMonth := getDate tza (Date_ymd tza year (month + 1) 0) in
  replicate (Z.to_nat firstDayOfMonth) None
  ++ map (fun i => Some (Date_ymd tza year month i)) (seqZ 1 daysInMonth).

(** The week part of the memo. *)
Definition weekGrid (tza currentDate : Z) : list Z :=
  let startOfWeek :=
    setDate tza currentDate (getDate tza currentDate - getDay tza currentDate) in
  map (fun i => setDate tza startOfWeek (getDate tza startOfWeek + i)) (seqZ 0 7).

Record AdvancedFilters := {
  f_auth_status : string;
  f_surgery_status : string;
  f_hospital_id : string;
  f_insurance_id : string
}.

(** The callback of [surgeries.filter] in index.tsx: each [if] returns
    [false]; the end returns [true]. *)
Definition keep (doctorFilter : string) (advancedFilters : AdvancedFilters)
    (s : Surgery) : bool :=
  if bool_decide (doctorFilter ≠ "all")
     && bool_decide (main_surgeon_id s ≠ doctorFilter)
     && negb (bool_decide (doctorFilter ∈ participating_ids s)) then false
  else if bool_decide (f_auth_status advancedFilters ≠ "all")
     && bool_decide (authName (auth_status s) ≠ f_auth_status advancedFilters)
  then false
  else if bool_decide (f_surgery_status advancedFilters ≠ "all")
     && bool_decide (statusName (surgery_status s) ≠ f_surgery_status advancedFilters)
  then false
  else if bool_decide (f_hospital_id advancedFilters ≠ "all")
     && bool_decide (pretty (hospital_id s) ≠ f_hospital_id advancedFilters)
  then false
  else if bool_decide (f_insurance_id advancedFilters ≠ "all")
     && bool_decide (pretty (insurance_id s) ≠ f_insurance_id advancedFilters)
  then false
  else true.

Definition filteredSurgeries (surgeries : list Surgery) (doctorFilter : string)
    (advancedFilters : AdvancedFilters) : list Surgery :=
  List.filter (keep doctorFilter advancedFilters) surgeries.

(** The four-state variant starts with one more test:
    [if (!['Agendada', 'Realizada'].includes(s.surgery_status)) return false]. *)
Definition keep4 (doctorFilter : string) (advancedFilters : AdvancedFilters)
    (s : Surgery) : bool :=
  if negb (bool_decide (surgery_status s ∈ [Agendada; Realizada])) then false
  else keep doctorFilter advancedFilters s.

Definition filteredSurgeries4 (surgeries : list Surgery) (doctorFilter : string)
    (advancedFilters : AdvancedFilters) : list Surgery :=
  List.filter (keep4 doctorFilter advancedFilters) surgeries.

Inductive ViewMode := ViewMonth | ViewWeek.

(** [handlePrev] and [handleNext] of index.tsx: the updater
    [d => new Date(d.getFullYear(), ..., ...)]. *)
Definition handlePrev (tza : Z) (viewMode : ViewMode) (d : Z) : Z :=
  Date_ymd tza (getFullYear tza d)
    (match viewMode with ViewMonth => getMonth tza d - 1 | ViewWeek => getMonth tza d end)
    (match viewMode with ViewMonth => 1 | ViewWeek => getDate tza d - 7 end).

Definition handleNext (tza : Z) (viewMode : ViewMode) (d : Z) : Z :=
  Date_ymd tza (getFullYear tza d)
    (match viewMode with ViewMonth => getMonth tza d + 1 | ViewWeek => getMonth tza d end)
    (match viewMode with ViewMonth => 1 | ViewWeek => getDate tza d + 7 end).

End CalendarView.

(** ** SurgeryModal: the fee map follows the team *)

Module SurgeryModal.

(** The fields of the form state that the fee effect reads or writes;
    [rest] stands for the other fields, which [{ ...prev, fees }] copies. *)
Record FormData (R : Type) := {
  main_surgeon_id : string;
  participating_ids : list string;
  fees : gmap string Z;
  rest : R
}.
Arguments main_surgeon_id {R} _.
Arguments participating_ids {R} _.
Arguments fees {R} _.
Arguments rest {R} _.

(** [[...new Set(l)]]: the elements in the order of their first occurrence. *)
Definition uniq (l : list string) : list string :=
  foldl (fun acc x => if bool_decide (x ∈ acc) then acc else acc ++ [x]) [] l.

(** [.filter(Boolean)] on strings: the empty string is dropped. *)
Definition truthy (l : list string) : list string :=
  List.filter (fun x => negb (bool_decide (x = ""))) l.

Definition uniqueDoctorIds {R} (formData : FormData R) : list string :=
  truthy (uniq (main_surgeon_id formData :: participating_ids formData)).

(** The loop [for (const id of uniqueDoctorIds) newFees[id] = prev.fees[id] || 0]. *)
Definition newFees (ids : list string) (prevFees : gmap string Z) : gmap string Z :=
  foldl (fun acc i => <[i := default 0 (prevFees !! i)]> acc) ∅ ids.

(** The updater passed to [setFormData] by the effect rendered with
    [formData]. *)
Definition feeUpdater {R} (formData prev : FormData R) : FormData R :=
  {| main_surgeon_id := main_surgeon_id prev;
     participating_ids := participating_ids prev;
     fees := newFees (uniqueDoctorIds formData) (fees prev);
     rest := rest prev |}.

(** The effect runs after the render that committed [formData], on that
    same state. *)
Definition feeEffect {R} (formData : FormData R) : FormData R :=
  feeUpdater formData formData.

Definition handleCheckboxChange {R} (doctorId : string) (prev : FormData R)
    : FormData R :=
  {| main_surgeon_id := main_surgeon_id prev;
     participating_ids :=
       if bool_decide (doctorId ∈ participating_ids prev)
       then List.filter (fun i => bool_decide (i ≠ doctorId)) (participating_ids prev)
       else participating_ids prev ++ [doctorId];
     fees := fees prev;
     rest := rest prev |}.

(** [handleChange] on the select of the main surgeon. *)
Definition handleChange_main_surgeon {R} (value : string) (prev : FormData R)
    : FormData R :=
  {| main_surgeon_id := value;
     participating_ids := participating_ids prev;
     fees := fees prev;
     rest := rest prev |}.


End SurgeryModal.

(** ** ReportsView *)

Module ReportsView.

(** [Object.values(fees).reduce((sum, fee) => sum + fee, 0)] *)
Definition sumFees (f : gmap string Z) : Z :=
  foldl Z.add 0 (map_to_list f).*2.

(** [getUserById(doctorId, users)?.name || 'Desconhecido'] *)
Definition doctorName (users : list Doctor) (doctorId : string) : string :=
  match getUserById doctorId users with
  | Some d => if bool_decide (name d = "") then "Desconhecido" else name d
  | None => "Desconhecido"
  end.

(** [acc[k] = (acc[k] || 0) + v] *)
Definition bump (acc : gmap string Z) (k : string) (v : Z) : gmap string Z :=
  <[k := default 0 (acc !! k) + v]> acc.

Definition hospitalMap (hospitals : list Hospital) : gmap Z string :=
  foldl (fun m h => <[hospital_key h := hospital_name h]> m) ∅ hospitals.

Definition hospitalLabel (hospitals : list Hospital) (s : Surgery) : string :=
  match hospitalMap hospitals !! hospital_id s with
  | Some n => if bool_decide (n = "") then "Desconhecido" else n
  | None => "Desconhecido"
  end.

Record Filters := {
  startDate : string;
  endDate : string;
  doctorId : string
}.

(** [a < b] on dates: false as soon as one of them is invalid. *)
Definition dateLt (a b : option Z) : bool :=
  match a, b with
  | Some x, Some y => x <? y
  | _, _ => false
  end.

(** The callback of [surgeries.filter] in the reports: an inclusive lower
    bound, an upper bound moved to the end of its day (local time), and
    the doctor; an empty bound is not applied. *)
Definition keep (tza : Z) (filters : Filters) (s : Surgery) : bool :=
  let surgeryDate := Date_of tza (date_time s) in
  if negb (bool_decide (startDate filters = ""))
     && dateLt surgeryDate (JsDate.Date_parse tza (startDate filters)) then false
  else if negb (bool_decide (endDate filters = ""))
     && dateLt ((fun t => JsDate.setHours4 tza t 23 59 59 999)
                  <$> JsDate.Date_parse tza (endDate filters)) surgeryDate
  then false
  else if bool_decide (doctorId filters ≠ "all")
     && bool_decide (main_surgeon_id s ≠ doctorId filters)
     && negb (bool_decide (doctorId filters ∈ participating_ids s)) then false
  else true.

Definition filteredSurgeries (tza : Z) (surgeries : list Surgery)
    (filters : Filters) : list Surgery :=
  List.filter (keep tza filters) surgeries.

Record Reports := {
  totalRevenue : Z;
  revenueByDoctor : gmap string Z;
  surgeriesByHospital : gmap string Z;
  totalSurgeries : nat;
  realizedSurgeriesCount : nat
}.

Definition realized (filteredSurgeries : list Surgery) : list Surgery :=
  List.filter (fun s => bool_decide (surgery_status s = Realizada)) filteredSurgeries.

Definition reports (filteredSurgeries : list Surgery) (hospitals : list Hospital)
    (users : list Doctor) : Reports :=
  {| totalRevenue :=
       foldl (fun acc s => acc + sumFees (fees s)) 0 (realized filteredSurgeries);
     revenueByDoctor :=
       foldl (fun acc s =>
                foldl (fun acc e => bump acc (doctorName users e.1) e.2)
                      acc (map_to_list (fees s)))
             ∅ (realized filteredSurgeries);
     surgeriesByHospital :=
       foldl (fun acc s => bump acc (hospitalLabel hospitals s) 1)
             ∅ filteredSurgeries;
     totalSurgeries := length filteredSurgeries;
     realizedSurgeriesCount := length (realized filteredSurgeries) |}.

End ReportsView.

(** ** App: change feed, reschedule by drag, attachment paths *)

Inductive ToastType := success | error.

Inductive Effect :=
  | update_date_time (surgeryId : Z) (date_time : string)
  | addToast (message : string) (type : ToastType).

(** How an async handler ends: it returns, or its promise is rejected. *)
Inductive Outcome :=
  | Returned (effects : list Effect)
  | Threw (effects : list Effect) (exn : string).

Module App.
Import JsDate.

(** A [postgres_changes] payload on the table of surgeries. *)
Inductive Payload :=
  | INSERT (new : Surgery)
  | UPDATE (new : Surgery)
  | DELETE (old_id : Z).

(** The state updater run for a payload. *)
Definition postgres_changes (payload : Payload) (current : list Surgery)
    : list Surgery :=
  match payload with
  | INSERT new => current ++ [new]
  | UPDATE new => map (fun s => if bool_decide (id s = id new) then new else s) current
  | DELETE old_id => List.filter (fun s => bool_decide (id s ≠ old_id)) current
  end.

Definition dropToast (dbError : option string) : Effect :=
  match dbError with
  | Some message => addToast ("Erro ao reagendar cirurgia: " +:+ message) error
  | None => addToast "Cirurgia reagendada com sucesso!" success
  end.

(** The template string of index.tsx: date of [newDate], hours and minutes
    of [oldDateTime]. *)
Definition newDateTimeString (tza newDate : Z) (oldDateTime : option Z) : string :=
  pretty (getFullYear tza newDate) +:+ "-"
  +:+ padStart 2 "0" (pretty (getMonth tza newDate + 1)) +:+ "-"
  +:+ padStart 2 "0" (pretty (getDate tza newDate)) +:+ "T"
  +:+ padStart 2 "0" (String_of (getHours tza <$> oldDateTime)) +:+ ":"
  +:+ padStart 2 "0" (String_of (getMinutes tza <$> oldDateTime)).

(** index.tsx.  [dbError] is the answer of the database to the update. *)
Definition handleSurgeryDrop (tza : Z) (surgeries : list Surgery)
    (dbError : option string) (surgeryId newDate : Z) : Outcome :=
  match List.find (fun s => bool_decide (id s = surgeryId)) surgeries with
  | None => Returned []
  | Some surgeryToMove =>
      let oldDateTime := Date_of tza (date_time surgeryToMove) in
      Returned [update_date_time surgeryId (newDateTimeString tza newDate oldDateTime);
                dropToast dbError]
  end.

(** The four-state variant.  [!surgeryToMove.date_time] holds for [null]
    and for the empty string; [toISOString] throws on an invalid date. *)
Definition handleSurgeryDrop4 (tza : Z) (surgeries : list Surgery)
    (dbError : option string) (surgeryId newDate : Z) : Outcome :=
  match List.find (fun s => bool_decide (id s = surgeryId)) surgeries with
  | None => Returned []
  | Some surgeryToMove =>
      match date_time surgeryToMove with
      | None => Returned []
      | Some str =>
          if bool_decide (str = "") then Returned []
          else
            match Date_parse tza str with
            | None => Threw [] "RangeError: Invalid time value"
            | Some oldDateTime =>
                let newDateTime :=
                  setHours3 tza newDate (getHours tza oldDateTime)
                    (getMinutes tza oldDateTime) (getSeconds tza oldDateTime) in
                Returned [update_date_time surgeryId (toISOString newDateTime);
                          dropToast dbError]
            end
      end
  end.

End App.

(** ** The local-storage variant of the application

    Surgeries are kept in the state of [App] itself; identifiers are
    strings and doctors are numbered. *)

Module LocalStore.
Import JsDate.

Record XRay := { xray_name : string; xray_data : string }.

Record Surgery := {
  id : string;
  patientName : string;
  mainSurgeonId : Z;
  participatingIds : list Z;
  dateTime : string;
  hospitalId : string;
  insuranceId : string;
  authStatus : AuthStatus;
  surgeryStatus : SurgeryStatus;
  fees : gmap string Z;
  materialCost : Z;
  notes : string;
  preOpXRay : option XRay;
  postOpXRay : option XRay
}.

Definition set_dateTime (v : string) (s : Surgery) : Surgery :=
  {| id := id s; patientName := patientName s; mainSurgeonId := mainSurgeonId s;
     participatingIds := participatingIds s; dateTime := v;
     hospitalId := hospitalId s; insuranceId := insuranceId s;
     authStatus := authStatus s; surgeryStatus := surgeryStatus s;
     fees := fees s; materialCost := materialCost s; notes := notes s;
     preOpXRay := preOpXRay s; postOpXRay := postOpXRay s |}.

(** The updater given to [setSurgeries], with the toast it raises. *)
Definition handleSurgeryDrop (tza : Z) (surgeryId : string) (newDate : Z)
    (prev : list Surgery) : list Surgery * list Effect :=
  match List.find (fun s => bool_decide (id s = surgeryId)) prev with
  | None => (prev, [])
  | Some surgeryToMove =>
      let oldDateTime := Date_parse tza (dateTime surgeryToMove) in
      let newDateTimeString := App.newDateTimeString tza newDate oldDateTime in
      let updatedSurgery := set_dateTime newDateTimeString surgeryToMove in
      (map (fun s => if bool_decide (id s = surgeryId) then updatedSurgery else s) prev,
       [addToast ("Cirurgia de " +:+ patientName updatedSurgery +:+ " reagendada.")
                 success])
  end.

(** The test of [daySurgeries] and of [surgeriesForSelectedDay]: year,
    month and date of the two dates are equal; a getter of an invalid
    date is NaN, which equals nothing. *)
Definition sameDay (tza : Z) (sDate : option Z) (date : Z) : bool :=
  match sDate with
  | Some t =>
      (getFullYear tza t =? getFullYear tza date)
      && (getMonth tza t =? getMonth tza date)
      && (getDate tza t =? getDate tza date)
  | None => false
  end.

(** The events of a cell of the grid; a padding cell has none. *)
Definition daySurgeries (tza : Z) (filteredSurgeries : list Surgery)
    (date : option Z) : list Surgery :=
  match date with
  | Some d =>
      List.filter (fun s => sameDay tza (Date_parse tza (dateTime s)) d)
                  filteredSurgeries
  | None => []
  end.

(** The updater of [handleSaveSurgery]: replace at the index found by
    [findIndex], or append. *)
Definition handleSaveSurgery (surgery : Surgery) (prev : list Surgery)
    : list Surgery :=
  match list_find (fun s => id s = id surgery) prev with
  | Some (index, _) => <[index := surgery]> prev
  | None => prev ++ [surgery]
  end.

Definition set_surgeryStatus (v : SurgeryStatus) (s : Surgery) : Surgery :=
  {| id := id s; patientName := patientName s; mainSurgeonId := mainSurgeonId s;
     participatingIds := participatingIds s; dateTime := dateTime s;
     hospitalId := hospitalId s; insuranceId := insuranceId s;
     authStatus := authStatus s; surgeryStatus := v;
     fees := fees s; materialCost := materialCost s; notes := notes s;
     preOpXRay := preOpXRay s; postOpXRay := postOpXRay s |}.

(** The updater of [handleUpdateSurgeryStatus], with the toast it raises. *)
Definition handleUpdateSurgeryStatus (surgeryId : string) (status : SurgeryStatus)
    (prev : list Surgery) : list Surgery * list Effect :=
  match List.find (fun s => bool_decide (id s = surgeryId)) prev with
  | None => (prev, [])
  | Some surgeryToUpdate =>
      let updatedSurgery := set_surgeryStatus status surgeryToUpdate in
      (map (fun s => if bool_decide (id s = surgeryId) then updatedSurgery else s) prev,
       [addToast ("Status da cirurgia de " +:+ patientName updatedSurgery
                  +:+ " atualizado para " +:+ statusName status +:+ ".") success])
  end.

(** [handlePrev] and [handleNext] of the local-storage variant: in week
    mode the date of the state is moved by [setDate]. *)
Definition handlePrev (z : Zoned.Zone) (viewMode : CalendarView.ViewMode)
    (currentDate : Z) : Z :=
  match viewMode with
  | CalendarView.ViewMonth =>
      Zoned.Date_ymd z (Zoned.getFullYear z currentDate)
        (Zoned.getMonth z currentDate - 1) 1
  | CalendarView.ViewWeek =>
      Zoned.setDate z currentDate (Zoned.getDate z currentDate - 7)
  end.

Definition handleNext (z : Zoned.Zone) (viewMode : CalendarView.ViewMode)
    (currentDate : Z) : Z :=
  match viewMode with
  | CalendarView.ViewMonth =>
      Zoned.Date_ymd z (Zoned.getFullYear z currentDate)
        (Zoned.getMonth z currentDate + 1) 1
  | CalendarView.ViewWeek =>
      Zoned.setDate z currentDate (Zoned.getDate z currentDate + 7)
  end.

(** An event used in the examples. *)
Definition exampleSurgery (i when : string) : Surgery :=
  {| id := i; patientName := "Maria"; mainSurgeonId := 1;
     participatingIds := [2]; dateTime := when; hospitalId := "1";
     insuranceId := "2"; authStatus := Liberado; surgeryStatus := Agendada;
     fees := ∅; materialCost := 0; notes := "";
     preOpXRay := None; postOpXRay := None |}.

End LocalStore.

(** ** The four-state variant: requests view and the date of the form *)

Module RequestsView.

(** The list of requests: events still requested or scheduled, with the
    authorization status selected. *)
Definition keep (authFilter : string) (s : Surgery) : bool :=
  if bool_decide (surgery_status s ≠ Solicitada)
     && bool_decide (surgery_status s ≠ Agendada) then false
  else if bool_decide (authFilter ≠ "all")
     && bool_decide (authName (auth_status s) ≠ authFilter) then false
  else true.

Definition filteredSurgeries (surgeries : list Surgery) (authFilter : string)
    : list Surgery :=
  List.filter (keep authFilter) surgeries.

End RequestsView.

Module EditForm.
Import JsDate.

(** A value computed by an expression that may throw. *)
Inductive Computed (A : Type) :=
  | Value (v : A)
  | RangeError.
Arguments Value {A} _.
Arguments RangeError {A}.

(** A string that is neither [null] nor empty. *)
Definition truthy (v : option string) : bool :=
  match v with
  | Some s => negb (bool_decide (s = ""))
  | None => false
  end.

(** [s.slice(0, 16)] *)
Definition slice16 (s : string) : string := String.substring 0 16 s.

(** The [date_time] put in the form when an event is opened:
    [date_time ? new Date(date_time).toISOString().slice(0, 16) : null]. *)
Definition formDateTime (tza : Z) (date_time : option string)
    : Computed (option string) :=
  if truthy date_time then
    match Date_of tza date_time with
    | Some t => Value (Some (slice16 (toISOString t)))
    | None => RangeError
    end
  else Value None.

(** The [date_time] saved from the form:
    [date_time ? new Date(date_time).toISOString() : null]. *)
Definition dateTimeUTC (tza : Z) (date_time : option string)
    : Computed (option string) :=
  if truthy date_time then
    match Date_of tza date_time with
    | Some t => Value (Some (toISOString t))
    | None => RangeError
    end
  else Value None.

(** Opening an event and saving the form as it is. *)
Definition openAndSave (tza : Z) (date_time : option string)
    : Computed (option string) :=
  match formDateTime tza date_time with
  | Value v => dateTimeUTC tza v
  | RangeError => RangeError
  end.

End EditForm.

(** ** DashboardView of index.tsx *)

Module DashboardView.
Import JsDate.

(** [today], with [setHours(0, 0, 0, 0)] applied. *)
Definition midnight (tza now : Z) : Z := setHours4 tza now 0 0 0 0.

(** The test of the month revenue: completed, and in the month and the
    year of today; a getter of an invalid date is NaN, which equals
    nothing. *)
Definition inCurrentMonth (tza now : Z) (s : Surgery) : bool :=
  let today := midnight tza now in
  let currentMonth := getMonth tza today in
  let currentYear := getFullYear tza today in
  let sDate := Date_of tza (date_time s) in
  bool_decide (surgery_status s = Realizada)
  && match sDate with Some t => getMonth tza t =? currentMonth | None => false end
  && match sDate with Some t => getFullYear tza t =? currentYear | None => false end.

Definition monthRevenue (tza now : Z) (surgeries : list Surgery) : Z :=
  foldl (fun total s => total + ReportsView.sumFees (fees s)) 0
        (List.filter (inCurrentMonth tza now) surgeries).

End DashboardView.

(** ** Attachment paths

    File names are where characters outside ASCII matter: a JavaScript
    string is a sequence of UTF-16 code units here. *)

Module Upload.

Definition ustring := list Z.

(** The code units of a string of ASCII characters. *)
Definition codes (s : string) : ustring :=
  map (fun c => Z.of_N (N_of_ascii c)) (list_ascii_of_string s).

(** The class of combining marks, U+0300 to U+036F. *)
Definition isCombiningMark (c : Z) : bool := (768 <=? c) && (c <=? 879).

(** [/[a-zA-Z0-9.\-_]/] *)
Definition isAllowed (c : Z) : bool :=
  (97 <=? c) && (c <=? 122) || (65 <=? c) && (c <=? 90)
  || (48 <=? c) && (c <=? 57) || (c =? 46) || (c =? 45) || (c =? 95).

(** [/\s/]: white space and line terminators. *)
Definition isSpace (c : Z) : bool :=
  (9 <=? c) && (c <=? 13) || (c =? 32) || (c =? 160) || (c =? 5760)
  || (8192 <=? c) && (c <=? 8202) || (c =? 8232) || (c =? 8233)
  || (c =? 8239) || (c =? 8287) || (c =? 12288) || (c =? 65279).

Definition underscore : Z := 95.

(** [.replace(/[\u0300-\u036f]/g, '')] *)
Definition stripMarks (s : ustring) : ustring :=
  List.filter (fun c => negb (isCombiningMark c)) s.

(** [.replace(/[^a-zA-Z0-9.\-_]/g, '_')] *)
Definition replaceDisallowed (s : ustring) : ustring :=
  map (fun c => if isAllowed c then c else underscore) s.

(** [.replace(/\s+/g, '_')]: each maximal run of white space becomes one
    underscore. *)
Fixpoint replaceSpaceRuns (s : ustring) : ustring :=
  match s with
  | [] => []
  | c :: r =>
      if isSpace c then
        match r with
        | c' :: _ => if isSpace c' then replaceSpaceRuns r
                     else underscore :: replaceSpaceRuns r
        | [] => [underscore]
        end
      else c :: replaceSpaceRuns r
  end.

Section Sanitize.
(** [String.prototype.normalize('NFD')]: the canonical decomposition of
    the Unicode standard, whose tables are not part of the program. *)
Variable normalizeNFD : ustring -> ustring.

Definition sanitizeFilename (name : ustring) : ustring :=
  replaceSpaceRuns (replaceDisallowed (stripMarks (normalizeNFD name))).

(** [`${loggedInUser.id}/${Date.now()}-${sanitizedName}`] *)
Definition filePath4 (ownerId : ustring) (now : Z) (fileName : ustring) : ustring :=
  ownerId ++ codes "/" ++ codes (pretty now) ++ codes "-" ++ sanitizeFilename fileName.
End Sanitize.

(** index.tsx: [`${loggedInUser.id}/${Date.now()}-${files.preOp.name}`] *)
Definition filePath (ownerId : ustring) (now : Z) (fileName : ustring) : ustring :=
  ownerId ++ codes "/" ++ codes (pretty now) ++ codes "-" ++ fileName.

(** Canonical decomposition of the accented letters of Portuguese, the
    other code units unchanged: a fragment of NFD used in the examples. *)
Definition decomposePt (c : Z) : ustring :=
  match c with
  | 192 => [65; 768] | 193 => [65; 769] | 194 => [65; 770] | 195 => [65; 771]
  | 199 => [67; 807]
  | 201 => [69; 769] | 202 => [69; 770]
  | 205 => [73; 769]
  | 211 => [79; 769] | 212 => [79; 770] | 213 => [79; 771]
  | 218 => [85; 769] | 220 => [85; 776]
  | 224 => [97; 768] | 225 => [97; 769] | 226 => [97; 770] | 227 => [97; 771]
  | 231 => [99; 807]
  | 233 => [101; 769] | 234 => [101; 770]
  | 237 => [105; 769]
  | 243 => [111; 769] | 244 => [111; 770] | 245 => [111; 771]
  | 250 => [117; 769] | 252 => [117; 776]
  | _ => [c]
  end.

Definition normalizePt (s : ustring) : ustring := concat (map decomposePt s).

(** The name [a\u00e7\u00e3o 1.png], used in the examples. *)
Definition acao_png : ustring :=
  [97; 231; 227; 111; 32; 49; 46; 112; 110; 103].

End Upload.

(** ** The properties, in the words of the specification *)

Module Spec.
Import CalendarView.

(** A select whose value is ['all'] constrains nothing; any other value
    must equal the field of the event. *)
Definition selected (choice value : string) : Prop :=
  choice = "all" ∨ value = choice.

Definition doctorMatches (doctorFilter : string) (s : Surgery) : Prop :=
  doctorFilter = "all"
  ∨ main_surgeon_id s = doctorFilter ∨ doctorFilter ∈ participating_ids s.

(** An event satisfies every active predicate. *)
Definition passes (doctorFilter : string) (advancedFilters : AdvancedFilters)
    (s : Surgery) : Prop :=
  doctorMatches doctorFilter s
  ∧ selected (f_auth_status advancedFilters) (authName (auth_status s))
  ∧ selected (f_surgery_status advancedFilters) (statusName (surgery_status s))
  ∧ selected (f_hospital_id advancedFilters) (pretty (hospital_id s))
  ∧ selected (f_insurance_id advancedFilters) (pretty (insurance_id s)).

Definition sumZ (l : list Z) : Z := foldr Z.add 0 l.

(** The sum of all fee values of an event. *)
Definition feeTotal (s : Surgery) : Z := sumZ (map_to_list (fees s)).*2.

Definition completed (s : Surgery) : bool :=
  bool_decide (surgery_status s = Realizada).

(** The fee entries (participant id, amount) of the completed events. *)
Definition completedFees (l : list Surgery) : list (string * Z) :=
  concat (map (fun s => map_to_list (fees s)) (List.filter completed l)).

(** The part of a list of fee entries that goes to the bucket [label]. *)
Definition bucket (users : list Doctor) (label : string)
    (entries : list (string * Z)) : Z :=
  sumZ (List.filter (fun e => bool_decide (ReportsView.doctorName users e.1 = label))
                    entries).*2.

(** The fee amounts of the events are integers whose absolute values add
    up to at most 2^53: every sum of them is then exact in the numbers
    of JavaScript, in whatever order it is taken. *)
Definition exactAmounts (l : list Surgery) : Prop :=
  sumZ (map (fun s => sumZ (Z.abs <$> (map_to_list (fees s)).*2)) l) ≤ 2 ^ 53.

(** The event has a date in the local month of [now]. *)
Definition sameMonth (tza now : Z) (s : Surgery) : bool :=
  match Date_of tza (date_time s) with
  | Some t => (JsDate.getMonth tza t =? JsDate.getMonth tza now)
              && (JsDate.getFullYear tza t =? JsDate.getFullYear tza now)
  | None => false
  end.

End Spec.

Definition exampleSolo (i : Z) (when : option string) (st : SurgeryStatus)
    (f : gmap string Z) : Surgery :=
  {| id := i; patient_name := "Joana"; main_surgeon_id := "A";
     participating_ids := []; date_time := when; hospital_id := 1;
     insurance_id := 2; auth_status := Liberado; surgery_status := st;
     fees := f; material_cost := 0; notes := "";
     pre_op_xray_path := None; post_op_xray_path := None |}.

(** Two doctors with the same name. *)
Definition exampleNamesakes : list Doctor :=
  [{| doctor_id := "A"; name := "Silva"; email := "a@example.org";
      color := "#111111"; is_admin := true |};
   {| doctor_id := "B"; name := "Silva"; email := "b@example.org";
      color := "#222222"; is_admin := false |}].

Definition exampleUsers : list Doctor :=
  [{| doctor_id := "A"; name := "Ana"; email := "ana@example.org";
      color := "#111111"; is_admin := true |}].

(** The event as the database holds it once the write of a drag has been
    applied: only the column [date_time] of the row is set. *)
Definition written (date_time' : string) (s : Surgery) : Surgery :=
  set_date_time (Some date_time') s.

(** Events used in the examples. *)
Definition noFilters : CalendarView.AdvancedFilters :=
  {| CalendarView.f_auth_status := "all"; CalendarView.f_surgery_status := "all";
     CalendarView.f_hospital_id := "all"; CalendarView.f_insurance_id := "all" |}.

Definition exampleSurgery (i : Z) (when : option string) (st : SurgeryStatus)
    (f : gmap string Z) : Surgery :=
  {| id := i; patient_name := "Maria"; main_surgeon_id := "A";
     participating_ids := ["B"]; date_time := when; hospital_id := 1;
     insurance_id := 2; auth_status := Liberado; surgery_status := st;
     fees := f; material_cost := 0; notes := "";
     pre_op_xray_path := None; post_op_xray_path := None |}.

(** * Facts about the platform model *)

Ltac dlia := Z.to_euclidean_division_equations; lia.

Section Calendar.
Import JsDate.

Lemma DaysInYear_cases y : DaysInYear y = 365 ∨ DaysInYear y = 366.
Proof. unfold DaysInYear. repeat destruct (negb _); auto. Qed.

Lemma leapOfYear_cases y :
  (leapOfYear y = 0 ∧ DaysInYear y = 365) ∨ (leapOfYear y = 1 ∧ DaysInYear y = 366).
Proof.
  unfold leapOfYear. destruct (DaysInYear_cases y) as [-> | ->]; simpl; auto.
Qed.

Lemma DayFromYear_succ y : DayFromYear (y + 1) = DayFromYear y + DaysInYear y.
Proof.
  unfold DayFromYear, DaysInYear.
  destruct (Z.eqb_spec (y mod 4) 0); cbn [negb];
  destruct (Z.eqb_spec (y mod 100) 0); cbn [negb];
  destruct (Z.eqb_spec (y mod 400) 0); cbn [negb]; dlia.
Qed.

Lemma DayFromYear_lt y1 y2 : y1 < y2 → DayFromYear y1 < DayFromYear y2.
Proof. unfold DayFromYear. dlia. Qed.

Lemma DayFromYear_le y1 y2 : y1 ≤ y2 → DayFromYear y1 ≤ DayFromYear y2.
Proof.
  intros H. destruct (Z.eq_dec y1 y2) as [-> | Hne]; [lia |].
  apply Z.lt_le_incl, DayFromYear_lt. lia.
Qed.

(** [YearFromDay] meets the definition of the standard. *)
Lemma YearFromDay_spec d :
  DayFromYear (YearFromDay d) ≤ d < DayFromYear (YearFromDay d + 1).
Proof.
  unfold YearFromDay.
  set (y := 1970 + d * 400 / 146097).
  destruct (Z.ltb_spec d (DayFromYear y)).
  - replace (y - 1 + 1) with y by lia. split; [| lia].
    subst y. unfold DayFromYear in *. dlia.
  - destruct (Z.leb_spec (DayFromYear (y + 1)) d).
    + split; [lia |]. subst y. unfold DayFromYear in *. dlia.
    + lia.
Qed.

Lemma YearFromDay_unique d y :
  DayFromYear y ≤ d < DayFromYear (y + 1) → YearFromDay d = y.
Proof.
  intros H. pose proof (YearFromDay_spec d) as H'.
  destruct (Z.lt_trichotomy (YearFromDay d) y) as [Hlt | [-> | Hgt]];
    [exfalso | reflexivity | exfalso].
  - pose proof (DayFromYear_le (YearFromDay d + 1) y). lia.
  - pose proof (DayFromYear_le (y + 1) (YearFromDay d)). lia.
Qed.

Lemma YearFromDay_within y k :
  0 ≤ k < DaysInYear y → YearFromDay (DayFromYear y + k) = y.
Proof.
  intros H. apply YearFromDay_unique. rewrite DayFromYear_succ. lia.
Qed.

Lemma Day_MakeDate d tod : 0 ≤ tod < msPerDay → Day (MakeDate d tod) = d.
Proof. unfold Day, MakeDate, msPerDay. intros. dlia. Qed.

Lemma TimeWithinDay_MakeDate d tod :
  0 ≤ tod < msPerDay → TimeWithinDay (MakeDate d tod) = tod.
Proof. unfold TimeWithinDay, MakeDate, msPerDay. intros. dlia. Qed.

Lemma MakeDate_Day t : MakeDate (Day t) (TimeWithinDay t) = t.
Proof. unfold MakeDate, Day, TimeWithinDay, msPerDay. dlia. Qed.

Lemma TimeWithinDay_range t : 0 ≤ TimeWithinDay t < msPerDay.
Proof. unfold TimeWithinDay, msPerDay. dlia. Qed.

(** The day within the year of any time value lies in its year. *)
Lemma DayWithinYear_range t :
  0 ≤ DayWithinYear t < DaysInYear (YearFromTime t).
Proof.
  unfold DayWithinYear, YearFromTime.
  pose proof (YearFromDay_spec (Day t)) as H.
  rewrite DayFromYear_succ in H. lia.
Qed.

Lemma InLeapYear_leapOfYear t : InLeapYear t = leapOfYear (YearFromTime t).
Proof. reflexivity. Qed.

Lemma MonthFromTime_range t : 0 ≤ MonthFromTime t ≤ 11.
Proof.
  unfold MonthFromTime, monthOfYearDay.
  repeat match goal with |- context [if ?b then _ else _] => destruct b end; lia.
Qed.

Lemma monthStart_month dwy leap :
  0 ≤ dwy < 365 + leap → 0 ≤ leap ≤ 1 →
  monthStart (monthOfYearDay dwy leap) leap ≤ dwy
  < monthStart (monthOfYearDay dwy leap + 1) leap.
Proof.
  intros H Hl. unfold monthOfYearDay.
  repeat match goal with
         | |- context [if ?a <? ?b then _ else _] => destruct (Z.ltb_spec a b)
         end; simpl; lia.
Qed.

(** The date of any time value is a day of its month. *)
Lemma DateFromTime_range t :
  1 ≤ DateFromTime t ≤ DaysInMonth (YearFromTime t) (MonthFromTime t).
Proof.
  unfold DateFromTime, DaysInMonth, MonthFromTime.
  rewrite InLeapYear_leapOfYear.
  pose proof (DayWithinYear_range t) as H.
  pose proof (leapOfYear_cases (YearFromTime t)) as Hl.
  pose proof (monthStart_month (DayWithinYear t) (leapOfYear (YearFromTime t))).
  lia.
Qed.

Lemma DaysInMonth_range y m : 0 ≤ m ≤ 11 → 28 ≤ DaysInMonth y m ≤ 31.
Proof.
  intros H. unfold DaysInMonth.
  destruct (leapOfYear_cases y) as [[-> _] | [-> _]];
    assert (m = 0 ∨ m = 1 ∨ m = 2 ∨ m = 3 ∨ m = 4 ∨ m = 5 ∨ m = 6 ∨ m = 7
            ∨ m = 8 ∨ m = 9 ∨ m = 10 ∨ m = 11) as Hm by lia;
    repeat (destruct Hm as [-> | Hm]; [simpl; lia |]); subst; simpl; lia.
Qed.

End Calendar.

Section CivilDates.
Import JsDate.

Lemma MakeDay_in_year y m d :
  0 ≤ m ≤ 11 → MakeDay y m d = DayFromYear y + monthStart m (leapOfYear y) + d - 1.
Proof.
  intros H. unfold MakeDay.
  replace (m / 12) with 0 by dlia. replace (m mod 12) with m by dlia.
  replace (y + 0) with y by lia. reflexivity.
Qed.

Lemma monthOfYearDay_start m leap d :
  0 ≤ m ≤ 11 → 0 ≤ leap ≤ 1 →
  1 ≤ d ≤ monthStart (m + 1) leap - monthStart m leap →
  monthOfYearDay (monthStart m leap + d - 1) leap = m.
Proof.
  intros Hm Hl Hd.
  assert (m = 0 ∨ m = 1 ∨ m = 2 ∨ m = 3 ∨ m = 4 ∨ m = 5 ∨ m = 6 ∨ m = 7
          ∨ m = 8 ∨ m = 9 ∨ m = 10 ∨ m = 11) as Hc by lia.
  unfold monthOfYearDay.
  repeat (destruct Hc as [-> | Hc]; [
    simpl in *;
    repeat match goal with
           | |- context [if ?a <? ?b then _ else _] => destruct (Z.ltb_spec a b)
           end; lia |]).
  subst m. simpl in *.
  repeat match goal with
         | |- context [if ?a <? ?b then _ else _] => destruct (Z.ltb_spec a b)
         end; lia.
Qed.

Lemma monthStart_bounds m leap :
  0 ≤ m ≤ 11 → 0 ≤ leap ≤ 1 →
  0 ≤ monthStart m leap ∧ monthStart (m + 1) leap ≤ 365 + leap.
Proof.
  intros Hm Hl.
  assert (m = 0 ∨ m = 1 ∨ m = 2 ∨ m = 3 ∨ m = 4 ∨ m = 5 ∨ m = 6 ∨ m = 7
          ∨ m = 8 ∨ m = 9 ∨ m = 10 ∨ m = 11) as Hc by lia.
  repeat (destruct Hc as [-> | Hc]; [simpl; lia |]). subst m. simpl. lia.
Qed.

(** The calendar fields of a day built by [MakeDay] from a date that
    exists are that date. *)
Lemma civil_of_MakeDay y m d tod :
  0 ≤ m ≤ 11 → 1 ≤ d ≤ DaysInMonth y m → 0 ≤ tod < msPerDay →
  YearFromTime (MakeDate (MakeDay y m d) tod) = y
  ∧ MonthFromTime (MakeDate (MakeDay y m d) tod) = m
  ∧ DateFromTime (MakeDate (MakeDay y m d) tod) = d.
Proof.
  intros Hm Hd Ht. unfold DaysInMonth in Hd.
  pose proof (leapOfYear_cases y) as Hl.
  pose proof (monthStart_bounds m (leapOfYear y)) as Hb.
  assert (Hy : YearFromTime (MakeDate (MakeDay y m d) tod) = y).
  { unfold YearFromTime. rewrite Day_MakeDate by done.
    rewrite MakeDay_in_year by done.
    replace (DayFromYear y + monthStart m (leapOfYear y) + d - 1)
      with (DayFromYear y + (monthStart m (leapOfYear y) + d - 1)) by lia.
    apply YearFromDay_within. lia. }
  assert (Hw : DayWithinYear (MakeDate (MakeDay y m d) tod)
               = monthStart m (leapOfYear y) + d - 1).
  { unfold DayWithinYear. rewrite Hy, Day_MakeDate by done.
    rewrite MakeDay_in_year by done. lia. }
  assert (Hmo : MonthFromTime (MakeDate (MakeDay y m d) tod) = m).
  { unfold MonthFromTime. rewrite InLeapYear_leapOfYear, Hy, Hw.
    apply monthOfYearDay_start; lia. }
  split; [done |]. split; [done |].
  unfold DateFromTime. rewrite Hmo, InLeapYear_leapOfYear, Hy, Hw. lia.
Qed.

(** Day 0 of the next month is the last day of this month. *)
Lemma MakeDay_day0 y m :
  0 ≤ m ≤ 11 → MakeDay y (m + 1) 0 = MakeDay y m (DaysInMonth y m).
Proof.
  intros Hm. rewrite (MakeDay_in_year y m) by done. unfold DaysInMonth.
  destruct (Z.eq_dec m 11) as [-> | Hne].
  - unfold MakeDay. simpl (11 + 1). change (12 / 12) with 1.
    change (12 mod 12) with 0. rewrite DayFromYear_succ.
    destruct (leapOfYear_cases y) as [[-> ->] | [-> ->]]; simpl; lia.
  - rewrite MakeDay_in_year by lia. lia.
Qed.

Lemma LocalTime_UTC tza t : LocalTime tza (UTC tza t) = t.
Proof. unfold LocalTime, UTC. lia. Qed.

Lemma UTC_LocalTime tza t : UTC tza (LocalTime tza t) = t.
Proof. unfold LocalTime, UTC. lia. Qed.

Lemma MakeTime_0 : MakeTime 0 0 0 0 = 0.
Proof. reflexivity. Qed.

(** [new Date(year, month, d)] read back in local time. *)
Lemma Date_ymd_fields tza year month d :
  0 ≤ month ≤ 11 → 1 ≤ d ≤ DaysInMonth (fullYear year) month →
  getFullYear tza (Date_ymd tza year month d) = fullYear year
  ∧ getMonth tza (Date_ymd tza year month d) = month
  ∧ getDate tza (Date_ymd tza year month d) = d.
Proof.
  intros Hm Hd. unfold getFullYear, getMonth, getDate, Date_ymd.
  rewrite LocalTime_UTC, MakeTime_0.
  apply civil_of_MakeDay; [done | done | unfold msPerDay; lia].
Qed.

(** [new Date(year, month + 1, 0).getDate()] is the length of the month. *)
Lemma daysInMonth_getDate tza year month :
  0 ≤ month ≤ 11 →
  getDate tza (Date_ymd tza year (month + 1) 0) = DaysInMonth (fullYear year) month.
Proof.
  intros Hm. unfold getDate, Date_ymd.
  rewrite LocalTime_UTC, MakeTime_0, MakeDay_day0 by done.
  pose proof (DaysInMonth_range (fullYear year) month Hm).
  apply civil_of_MakeDay; [done | lia | unfold msPerDay; lia].
Qed.

End CivilDates.

(** * The month grid *)

Section MonthGrid.
Import JsDate CalendarView.

Lemma getDay_range tza t : 0 ≤ getDay tza t ≤ 6.
Proof. unfold getDay, WeekDay. dlia. Qed.

Lemma getMonth_range tza t : 0 ≤ getMonth tza t ≤ 11.
Proof. apply MonthFromTime_range. Qed.

Lemma getDay_Date_ymd tza year month d :
  getDay tza (Date_ymd tza year month d)
  = WeekDay (MakeDate (MakeDay (fullYear year) month d) 0).
Proof. unfold getDay, Date_ymd. by rewrite LocalTime_UTC, MakeTime_0. Qed.





End MonthGrid.

(** * The filter of the calendar *)

Section Filter.
Import CalendarView Spec.

Lemma guard_selected (choice value : string) :
  bool_decide (choice ≠ "all") && bool_decide (value ≠ choice) = false
  ↔ selected choice value.
Proof.
  unfold selected.
  destruct (decide (choice = "all")) as [-> | Hc].
  - rewrite bool_decide_eq_false_2 by (intros H; by apply H). simpl. tauto.
  - rewrite (bool_decide_eq_true_2 _ Hc). simpl.
    rewrite bool_decide_eq_false. split.
    + intros H. right. by destruct (decide (value = choice)).
    + intros [H | H] Hn; contradiction.
Qed.

Lemma guard_doctor doctorFilter (s : Surgery) :
  bool_decide (doctorFilter ≠ "all")
  && bool_decide (main_surgeon_id s ≠ doctorFilter)
  && negb (bool_decide (doctorFilter ∈ participating_ids s)) = false
  ↔ doctorMatches doctorFilter s.
Proof.
  unfold doctorMatches.
  destruct (decide (doctorFilter = "all")) as [-> | Hc].
  - rewrite bool_decide_eq_false_2 by (intros H; by apply H). simpl. tauto.
  - rewrite (bool_decide_eq_true_2 _ Hc). simpl.
    destruct (decide (main_surgeon_id s = doctorFilter)) as [He | He].
    + rewrite bool_decide_eq_false_2 by (intros H; by apply H). simpl. tauto.
    + rewrite (bool_decide_eq_true_2 _ He). simpl.
      destruct (decide (doctorFilter ∈ participating_ids s)) as [Hi | Hi].
      * rewrite (bool_decide_eq_true_2 _ Hi). simpl. tauto.
      * rewrite (bool_decide_eq_false_2 _ Hi). simpl. split; [done |].
        intros [H | [H | H]]; contradiction.
Qed.

Lemma keep_passes doctorFilter advancedFilters s :
  keep doctorFilter advancedFilters s = true ↔ passes doctorFilter advancedFilters s.
Proof.
  unfold keep, passes.
  rewrite <- guard_doctor, <- !guard_selected.
  repeat match goal with
         | |- context [if ?b then false else _] => destruct b
         end; intuition congruence.
Qed.

Lemma keep4_passes doctorFilter advancedFilters s :
  keep4 doctorFilter advancedFilters s = true
  ↔ (surgery_status s = Agendada ∨ surgery_status s = Realizada)
    ∧ passes doctorFilter advancedFilters s.
Proof.
  unfold keep4. rewrite <- keep_passes.
  destruct (surgery_status s); cbn [negb bool_decide decide_rel];
    try (rewrite bool_decide_eq_true_2 by (rewrite !elem_of_cons; tauto));
    try (rewrite bool_decide_eq_false_2
           by (rewrite !elem_of_cons, elem_of_nil; intuition discriminate));
    cbn [negb]; intuition discriminate.
Qed.

(** C4, as amended.  In index.tsx an event is kept exactly when it is in
    the list and satisfies every active predicate.  In the four-state
    variant it must moreover be scheduled or completed ('Agendada' or
    'Realizada'), whatever the filters are.  The order and multiplicity of
    the kept events are those of the input ([List.filter]). *)
Theorem filteredSurgeries_conjunctive (surgeries : list Surgery)
    (doctorFilter : string) (advancedFilters : AdvancedFilters) (s : Surgery) :
  (s ∈ filteredSurgeries surgeries doctorFilter advancedFilters
   ↔ s ∈ surgeries ∧ passes doctorFilter advancedFilters s)
  ∧ (s ∈ filteredSurgeries4 surgeries doctorFilter advancedFilters
     ↔ s ∈ surgeries
       ∧ (surgery_status s = Agendada ∨ surgery_status s = Realizada)
       ∧ passes doctorFilter advancedFilters s).
Proof.
  unfold filteredSurgeries, filteredSurgeries4.
  rewrite !list_elem_of_In, !filter_In, <- !list_elem_of_In.
  rewrite keep_passes, keep4_passes. done.
Qed.

(** C4 fails on the four-state variant: a cancelled event satisfies every
    active predicate when no filter is set, and is not kept. *)
Lemma filteredSurgeries_conjunctive_counterexample :
  let s := exampleSurgery 1 (Some "2024-03-10T14:30:00Z") Cancelada ∅ in
  ¬ (s ∈ filteredSurgeries4 [s] "all" noFilters
     ↔ s ∈ [s] ∧ passes "all" noFilters s).
Proof.
  intros s [_ H].
  assert (Hin : s ∈ filteredSurgeries4 [s] "all" noFilters).
  { apply H. split; [apply list_elem_of_here |].
    unfold passes, doctorMatches, selected. simpl. tauto. }
  vm_compute in Hin. inversion Hin.
Qed.

End Filter.

(** * Folding the change feed *)

Section ChangeFeed.
Import App.

Lemma update_ids new current :
  map id (postgres_changes (UPDATE new) current) = map id current.
Proof.
  simpl. rewrite map_map. apply map_ext. intros s.
  case_bool_decide; congruence.
Qed.

Lemma delete_ids old_id current :
  map id (postgres_changes (DELETE old_id) current)
  = List.filter (fun i => bool_decide (i ≠ old_id)) (map id current).
Proof.
  simpl. induction current as [| s l IH]; [done |].
  simpl. case_bool_decide; simpl; by rewrite IH.
Qed.

Lemma NoDup_filter_bool {A} (f : A → bool) (l : list A) :
  NoDup l → NoDup (List.filter f l).
Proof.
  induction 1 as [| x l Hx Hl IH]; simpl; [constructor |].
  destruct (f x); [| done]. constructor; [| done].
  rewrite list_elem_of_In, filter_In, <- list_elem_of_In. tauto.
Qed.

(** C5, as amended.  An insert appends the new event whether or not its
    id is already present; an update replaces every event that has the
    id of the new row and keeps the length, the order and the ids; a
    delete removes every event with the id.  Events with another id are
    never touched.  Ids stay unique under update and delete, and under
    insert exactly when the id of the new event is not yet present. *)
Theorem postgres_changes_fold (current : list Surgery) (new : Surgery) (old_id : Z) :
  postgres_changes (INSERT new) current = current ++ [new]
  ∧ (NoDup (map id current) →
       (NoDup (map id (postgres_changes (INSERT new) current))
        ↔ id new ∉ map id current))
  ∧ length (postgres_changes (UPDATE new) current) = length current
  ∧ (∀ i s, current !! i = Some s →
       postgres_changes (UPDATE new) current !! i
       = Some (if bool_decide (id s = id new) then new else s))
  ∧ (NoDup (map id current) →
       NoDup (map id (postgres_changes (UPDATE new) current)))
  ∧ (∀ s, s ∈ postgres_changes (DELETE old_id) current
          ↔ s ∈ current ∧ id s ≠ old_id)
  ∧ postgres_changes (DELETE old_id) current `sublist_of` current
  ∧ (NoDup (map id current) →
       NoDup (map id (postgres_changes (DELETE old_id) current))).
Proof.
  split; [done |]. split.
  { intros Hnd. simpl. rewrite map_app. simpl. rewrite NoDup_app.
    split.
    - intros (_ & H & _) Hin. apply (H _ Hin). apply list_elem_of_here.
    - intros Hn. split; [done |]. split; [| apply NoDup_singleton].
      intros x Hx Hx'. apply list_elem_of_singleton in Hx'. by subst. }
  split; [apply length_map |]. split.
  { intros i s Hi. simpl. by rewrite list_lookup_fmap, Hi. }
  split; [by rewrite update_ids |]. split.
  { intros s. simpl. rewrite list_elem_of_In, filter_In, <- list_elem_of_In.
    by rewrite bool_decide_eq_true. }
  split.
  { simpl. induction current as [| s l IH]; simpl; [constructor |].
    destruct (bool_decide _); [by apply sublist_skip | by apply sublist_cons]. }
  intros Hnd. rewrite delete_ids. by apply NoDup_filter_bool.
Qed.

(** C5 fails on insert: a row whose id is already present is appended
    all the same, and the ids are no longer unique. *)
Lemma postgres_changes_fold_counterexample :
  let s := exampleSurgery 1 (Some "2024-03-10T14:30:00Z") Agendada ∅ in
  postgres_changes (INSERT s) [s] = [s; s]
  ∧ ¬ NoDup (map id (postgres_changes (INSERT s) [s])).
Proof.
  intros s. split; [reflexivity |].
  simpl. intros H. apply NoDup_cons in H as [H _]. apply H, list_elem_of_here.
Qed.

(** Ids that are unique stay so under an update and a delete; an insert
    needs a fresh id. *)
Lemma postgres_changes_fold_witness :
  let s := exampleSurgery 1 (Some "2024-03-10T14:30:00Z") Agendada ∅ in
  let s' := exampleSurgery 2 None Solicitada ∅ in
  NoDup (map id (postgres_changes (DELETE 1) [s; s'])).
Proof.
  intros s s'.
  apply (postgres_changes_fold [s; s'] s 1).
  simpl. apply NoDup_cons. split.
  - rewrite list_elem_of_singleton. discriminate.
  - apply NoDup_singleton.
Defined.

End ChangeFeed.

(** * Revenue in the reports *)

Section Revenue.
Import ReportsView Spec.

Lemma foldl_add_sumZ (l : list Z) (a : Z) : foldl Z.add a l = a + sumZ l.
Proof.
  revert a. induction l as [| x l IH]; intros a; simpl; [lia |].
  rewrite IH. unfold sumZ. simpl. lia.
Qed.

Lemma sumZ_cons (x : Z) (l : list Z) : sumZ (x :: l) = x + sumZ l.
Proof. reflexivity. Qed.

Lemma sumZ_nil : sumZ [] = 0.
Proof. reflexivity. Qed.

Lemma sumZ_app (l1 l2 : list Z) : sumZ (l1 ++ l2) = sumZ l1 + sumZ l2.
Proof. induction l1 as [| x l IH]; simpl; [done |]. unfold sumZ in *. simpl. lia. Qed.

Lemma sumZ_perm (l1 l2 : list Z) : l1 ≡ₚ l2 → sumZ l1 = sumZ l2.
Proof.
  induction 1 as [| x l l' _ IH | x y l | l l' l'' _ IH1 _ IH2];
    unfold sumZ in *; simpl; lia.
Qed.

Lemma sumFees_feeTotal (s : Surgery) : sumFees (fees s) = feeTotal s.
Proof. unfold sumFees, feeTotal. rewrite foldl_add_sumZ. lia. Qed.

Lemma totalRevenue_fold (l : list Surgery) (a : Z) :
  foldl (fun acc s => acc + sumFees (fees s)) a l = a + sumZ (map feeTotal l).
Proof.
  revert a. induction l as [| s l IH]; intros a; simpl; [unfold sumZ; simpl; lia |].
  rewrite IH, sumFees_feeTotal. unfold sumZ. simpl. lia.
Qed.

Lemma totalRevenue_sum l hospitals users :
  totalRevenue (reports l hospitals users)
  = sumZ (map feeTotal (List.filter completed l)).
Proof. unfold reports, realized. simpl. by rewrite totalRevenue_fold. Qed.

Lemma filter_app_bool {A} (f : A → bool) (l1 l2 : list A) :
  List.filter f (l1 ++ l2) = List.filter f l1 ++ List.filter f l2.
Proof. induction l1 as [| x l IH]; simpl; [done |]. destruct (f x); simpl; by rewrite IH. Qed.

Lemma lookup_bump acc k v k' :
  default 0 (bump acc k v !! k')
  = default 0 (acc !! k') + (if bool_decide (k = k') then v else 0).
Proof.
  unfold bump. case_bool_decide as H.
  - subst. rewrite lookup_insert_eq. simpl. lia.
  - rewrite lookup_insert_ne by done. lia.
Qed.

Lemma bucket_fold users label (entries : list (string * Z)) acc :
  default 0 (foldl (fun acc e => bump acc (doctorName users e.1) e.2) acc entries
             !! label)
  = default 0 (acc !! label) + bucket users label entries.
Proof.
  revert acc. induction entries as [| e l IH]; intros acc; simpl.
  - unfold bucket, sumZ. simpl. lia.
  - rewrite IH, lookup_bump. unfold bucket. cbn [List.filter].
    case_bool_decide; rewrite ?fmap_cons, ?sumZ_cons; lia.
Qed.

Lemma bucket_app users label (l1 l2 : list (string * Z)) :
  bucket users label (l1 ++ l2) = bucket users label l1 + bucket users label l2.
Proof. unfold bucket. by rewrite filter_app_bool, fmap_app, sumZ_app. Qed.

Lemma revenueByDoctor_fold users label (l : list Surgery) acc :
  default 0 (foldl (fun acc s =>
                      foldl (fun acc e => bump acc (doctorName users e.1) e.2)
                            acc (map_to_list (fees s))) acc l !! label)
  = default 0 (acc !! label)
    + bucket users label (concat (map (fun s => map_to_list (fees s)) l)).
Proof.
  revert acc. induction l as [| s l IH]; intros acc; simpl.
  - unfold bucket, sumZ. simpl. lia.
  - rewrite IH, bucket_fold, bucket_app. lia.
Qed.

(** The values of a map add up to the old sum plus [v] after [bump]. *)
Lemma sumValues_insert (m : gmap string Z) k x :
  sumZ (map_to_list (<[k := x]> m)).*2
  = sumZ (map_to_list m).*2 - default 0 (m !! k) + x.
Proof.
  destruct (m !! k) as [y |] eqn:Hk.
  - rewrite <- (insert_delete_eq m k x).
    rewrite <- (insert_delete_id m k y Hk) at 2.
    rewrite !(sumZ_perm _ _ (fmap_Permutation snd _ _
               (map_to_list_insert _ _ _ (lookup_delete_eq m k)))).
    rewrite !fmap_cons, !sumZ_cons. simpl. lia.
  - rewrite (sumZ_perm _ _ (fmap_Permutation snd _ _ (map_to_list_insert _ _ _ Hk))).
    rewrite fmap_cons, sumZ_cons. simpl. lia.
Qed.

Lemma sumValues_bump (acc : gmap string Z) k v :
  sumZ (map_to_list (bump acc k v)).*2 = sumZ (map_to_list acc).*2 + v.
Proof. unfold bump. rewrite sumValues_insert. lia. Qed.

Lemma sumValues_fold users (entries : list (string * Z)) acc :
  sumZ (map_to_list
          (foldl (fun acc e => bump acc (doctorName users e.1) e.2) acc entries)).*2
  = sumZ (map_to_list acc).*2 + sumZ entries.*2.
Proof.
  revert acc. induction entries as [| e l IH]; intros acc; cbn [foldl].
  - rewrite fmap_nil, sumZ_nil. lia.
  - rewrite IH, sumValues_bump, fmap_cons, sumZ_cons. lia.
Qed.

Lemma sumValues_revenue users (l : list Surgery) acc :
  sumZ (map_to_list
          (foldl (fun acc s =>
                    foldl (fun acc e => bump acc (doctorName users e.1) e.2)
                          acc (map_to_list (fees s))) acc l)).*2
  = sumZ (map_to_list acc).*2 + sumZ (map feeTotal l).
Proof.
  revert acc. induction l as [| s l IH]; intros acc; cbn [foldl map].
  - rewrite sumZ_nil. lia.
  - rewrite IH, sumValues_fold, sumZ_cons. unfold feeTotal. lia.
Qed.

Lemma totalRevenue_remove l1 s l2 hospitals users :
  totalRevenue (reports (l1 ++ s :: l2) hospitals users)
  = totalRevenue (reports (l1 ++ l2) hospitals users)
    + (if completed s then feeTotal s else 0).
Proof.
  rewrite !totalRevenue_sum, !filter_app_bool.
  cbn [List.filter]. destruct (completed s);
    rewrite !map_app, !sumZ_app; [rewrite map_cons, sumZ_cons |]; lia.
Qed.

(** Cancelling a completed event removes exactly its fees from the total. *)
Lemma totalRevenue_cancel l1 s l2 hospitals users :
  surgery_status s = Realizada →
  totalRevenue (reports (l1 ++ set_surgery_status Cancelada s :: l2) hospitals users)
  = totalRevenue (reports (l1 ++ s :: l2) hospitals users) - feeTotal s.
Proof.
  intros Hs. rewrite !totalRevenue_remove.
  unfold completed. rewrite Hs. simpl. lia.
Qed.

(** The label of an id is the name of the first user with that id. *)
Lemma doctorName_first users1 d users2 i :
  (∀ d', d' ∈ users1 → doctor_id d' ≠ i) → doctor_id d = i →
  doctorName (users1 ++ d :: users2) i
  = if bool_decide (name d = "") then "Desconhecido" else name d.
Proof.
  intros Hbefore Hd. unfold doctorName, getUserById.
  induction users1 as [| x l IH]; cbn [app List.find].
  - by rewrite bool_decide_eq_true_2.
  - rewrite bool_decide_eq_false_2 by (apply Hbefore, list_elem_of_here).
    apply IH. intros d' Hd'. by apply Hbefore, list_elem_of_further.
Qed.

Lemma doctorName_unknown users i :
  (∀ d, d ∈ users → doctor_id d ≠ i) → doctorName users i = "Desconhecido".
Proof.
  intros Hnone. unfold doctorName, getUserById.
  induction users as [| x l IH]; cbn [List.find]; [done |].
  rewrite bool_decide_eq_false_2 by (apply Hnone, list_elem_of_here).
  apply IH. intros d Hd. by apply Hnone, list_elem_of_further.
Qed.

(** C6, as amended.  [totalRevenue] is the sum of all fee values of the
    filtered events whose status is 'Realizada'; an event in any other
    status adds nothing.  In the breakdown every fee of a completed
    event is added to the bucket labelled with the name of the first
    user whose id is the id of the entry, participants of the same name
    sharing a bucket; an id that no user has, or whose user has an
    empty name, goes to 'Desconhecido'.  For integer amounts whose sums
    are exact, a completed event adds exactly its fees to the total and
    no fee is dropped: the buckets add up to the total. *)
Theorem reports_revenue (filteredSurgeries : list Surgery)
    (hospitals : list Hospital) (users : list Doctor) :
  let r := reports filteredSurgeries hospitals users in
  totalRevenue r = sumZ (map feeTotal (List.filter completed filteredSurgeries))
  ∧ (∀ l1 s l2, surgery_status s ≠ Realizada →
       totalRevenue (reports (l1 ++ s :: l2) hospitals users)
       = totalRevenue (reports (l1 ++ l2) hospitals users))
  ∧ (∀ l1 s l2, exactAmounts (l1 ++ s :: l2) → surgery_status s = Realizada →
       totalRevenue (reports (l1 ++ s :: l2) hospitals users)
       = totalRevenue (reports (l1 ++ l2) hospitals users) + feeTotal s)
  ∧ (∀ label,
       default 0 (revenueByDoctor r !! label)
       = bucket users label (completedFees filteredSurgeries))
  ∧ (∀ users1 d users2 i,
       users = users1 ++ d :: users2 →
       (∀ d', d' ∈ users1 → doctor_id d' ≠ i) → doctor_id d = i →
       doctorName users i = if bool_decide (name d = "") then "Desconhecido" else name d)
  ∧ (∀ i, (∀ d, d ∈ users → doctor_id d ≠ i) → doctorName users i = "Desconhecido")
  ∧ (exactAmounts filteredSurgeries →
       sumZ (map_to_list (revenueByDoctor r)).*2 = totalRevenue r).
Proof.
  intros r. split; [apply totalRevenue_sum |]. split.
  { intros l1 s l2 Hs. rewrite totalRevenue_remove. unfold completed.
    rewrite bool_decide_eq_false_2 by done. lia. }
  split.
  { intros l1 s l2 _ Hs. rewrite totalRevenue_remove. unfold completed.
    by rewrite bool_decide_eq_true_2. }
  split.
  { intros label. unfold r, reports; cbn [revenueByDoctor].
    rewrite revenueByDoctor_fold, lookup_empty. simpl. reflexivity. }
  split.
  { intros users1 d users2 i -> Hbefore Hd. by apply doctorName_first. }
  split; [apply doctorName_unknown |].
  intros _. unfold r. rewrite totalRevenue_sum. unfold reports; cbn [revenueByDoctor].
  rewrite sumValues_revenue, map_to_list_empty. reflexivity.
Qed.

(** Two completed events: the buckets add up to the total, 1700. *)
Lemma reports_revenue_witness :
  let e1 := exampleSolo 1 (Some "2024-03-10T14:30:00Z") Realizada {["A" := 1000]} in
  let e2 := exampleSurgery 2 (Some "2024-03-11T09:00:00Z") Realizada
              (<["A" := 500]> {["B" := 200]}) in
  let r := reports [e1; e2] [] exampleUsers in
  sumZ (map_to_list (revenueByDoctor r)).*2 = totalRevenue r
  ∧ totalRevenue r = 1700.
Proof.
  intros e1 e2 r. split; [| vm_compute; reflexivity].
  pose proof (reports_revenue [e1; e2] [] exampleUsers) as (_ & _ & _ & _ & _ & _ & H).
  apply H. vm_compute. discriminate.
Defined.

(** C6 fails on the attribution: the buckets are labelled with names, so
    the fees of two participants with the same name, 500 for the id A
    and 200 for the id B, are one bucket of 700 and no bucket belongs to
    either id. *)
Lemma reports_revenue_counterexample :
  let e := exampleSurgery 1 (Some "2024-03-10T14:30:00Z") Realizada
             (<["A" := 500]> {["B" := 200]}) in
  let r := reports [e] [] exampleNamesakes in
  revenueByDoctor r !! "Silva" = Some 700
  ∧ size (revenueByDoctor r) = 1%nat
  ∧ revenueByDoctor r !! "A" = None
  ∧ revenueByDoctor r !! "B" = None.
Proof. vm_compute. auto. Qed.
(** Two completed events with fees {A: 1000} and {A: 500, B: 200}; the
    reports filtered on doctor B keep the second one only: the total is
    700, of which 500 for A (Ana) and 200 for B, who is not among the
    known users. *)
Lemma reports_scenario :
  let e1 := exampleSolo 1 (Some "2024-03-10T14:30:00Z") Realizada {["A" := 1000]} in
  let e2 := exampleSurgery 2 (Some "2024-03-11T09:00:00Z") Realizada
              (<["A" := 500]> {["B" := 200]}) in
  let filters := {| startDate := ""; endDate := ""; doctorId := "B" |} in
  let r := reports (filteredSurgeries 0 [e1; e2] filters) [] exampleUsers in
  filteredSurgeries 0 [e1; e2] filters = [e2]
  ∧ totalRevenue r = 700
  ∧ revenueByDoctor r !! "Ana" = Some 500
  ∧ revenueByDoctor r !! "Desconhecido" = Some 200
  ∧ realizedSurgeriesCount r = 1%nat.
Proof. vm_compute. auto. Qed.

End Revenue.

(** * The fee map of the form *)

Section Fees.
Import SurgeryModal.

Lemma uniq_fold_elem (l acc : list string) x :
  x ∈ foldl (fun acc x => if bool_decide (x ∈ acc) then acc else acc ++ [x]) acc l
  ↔ x ∈ acc ∨ x ∈ l.
Proof.
  revert acc. induction l as [| y l IH]; intros acc; simpl.
  - rewrite elem_of_nil. tauto.
  - rewrite IH, elem_of_cons. case_bool_decide as Hy.
    + split; [tauto |]. intros [H | [-> | H]]; auto.
    + rewrite elem_of_app, list_elem_of_singleton. tauto.
Qed.

Lemma uniq_fold_NoDup (l acc : list string) :
  NoDup acc →
  NoDup (foldl (fun acc x => if bool_decide (x ∈ acc) then acc else acc ++ [x]) acc l).
Proof.
  revert acc. induction l as [| y l IH]; intros acc Hacc; simpl; [done |].
  apply IH. case_bool_decide as Hy; [done |].
  apply NoDup_app. split; [done |]. split; [| apply NoDup_singleton].
  intros x Hx Hx'. apply list_elem_of_singleton in Hx'. by subst.
Qed.

Lemma elem_of_uniq l x : x ∈ uniq l ↔ x ∈ l.
Proof. unfold uniq. rewrite uniq_fold_elem, elem_of_nil. tauto. Qed.

Lemma NoDup_uniq l : NoDup (uniq l).
Proof. apply uniq_fold_NoDup, NoDup_nil_2. Qed.

Lemma elem_of_truthy l x : x ∈ truthy l ↔ x ∈ l ∧ x ≠ "".
Proof.
  unfold truthy. rewrite list_elem_of_In, filter_In, <- list_elem_of_In.
  rewrite negb_true_iff, bool_decide_eq_false. done.
Qed.

Lemma elem_of_uniqueDoctorIds {R} (formData : FormData R) x :
  x ∈ uniqueDoctorIds formData
  ↔ x ≠ "" ∧ (x = main_surgeon_id formData ∨ x ∈ participating_ids formData).
Proof.
  unfold uniqueDoctorIds. rewrite elem_of_truthy, elem_of_uniq, elem_of_cons. tauto.
Qed.

Lemma NoDup_uniqueDoctorIds {R} (formData : FormData R) :
  NoDup (uniqueDoctorIds formData).
Proof.
  unfold uniqueDoctorIds, truthy. apply NoDup_filter_bool, NoDup_uniq.
Qed.

Lemma newFees_fold_lookup (ids : list string) (prevFees acc : gmap string Z) i :
  foldl (fun acc i => <[i := default 0 (prevFees !! i)]> acc) acc ids !! i
  = if bool_decide (i ∈ ids) then Some (default 0 (prevFees !! i)) else acc !! i.
Proof.
  revert acc. induction ids as [| j ids IH]; intros acc; cbn [foldl].
  - by rewrite bool_decide_eq_false_2 by apply not_elem_of_nil.
  - rewrite IH. destruct (decide (i ∈ ids)) as [Hi | Hi].
    + rewrite !bool_decide_eq_true_2; [done | by apply list_elem_of_further | done].
    + rewrite (bool_decide_eq_false_2 _ Hi).
      destruct (decide (i = j)) as [-> | Hne].
      * rewrite lookup_insert_eq.
        by rewrite bool_decide_eq_true_2 by apply list_elem_of_here.
      * rewrite lookup_insert_ne by done.
        rewrite bool_decide_eq_false_2; [done |].
        rewrite elem_of_cons. tauto.
Qed.

Lemma newFees_lookup (ids : list string) (prevFees : gmap string Z) i :
  newFees ids prevFees !! i
  = if bool_decide (i ∈ ids) then Some (default 0 (prevFees !! i)) else None.
Proof. unfold newFees. by rewrite newFees_fold_lookup, lookup_empty. Qed.

Lemma feeEffect_lookup {R} (formData : FormData R) i :
  fees (feeEffect formData) !! i
  = if bool_decide (i ∈ uniqueDoctorIds formData)
    then Some (default 0 (fees formData !! i)) else None.
Proof. unfold feeEffect, feeUpdater; cbn [fees]. apply newFees_lookup. Qed.

(** Unticking a participant drops the entry; ticking a doctor who had no
    entry gives the fee 0; the other entries are as the effect leaves
    them without the change. *)
Lemma feeEffect_after_toggle {R} (formData : FormData R) doctorId :
  doctorId ≠ "" → doctorId ≠ main_surgeon_id formData →
  fees (feeEffect (handleCheckboxChange doctorId formData)) !! doctorId
  = (if bool_decide (doctorId ∈ participating_ids formData) then None
     else Some (default 0 (fees formData !! doctorId)))
  ∧ (∀ i, i ≠ doctorId →
       fees (feeEffect (handleCheckboxChange doctorId formData)) !! i
       = fees (feeEffect formData) !! i).
Proof.
  intros Hne Hmain.
  assert (Hmem : ∀ i, i ∈ uniqueDoctorIds (handleCheckboxChange doctorId formData)
    ↔ i ≠ "" ∧ (i = main_surgeon_id formData
                ∨ (if bool_decide (doctorId ∈ participating_ids formData)
                   then i ∈ participating_ids formData ∧ i ≠ doctorId
                   else i ∈ participating_ids formData ∨ i = doctorId))).
  { intros i. rewrite elem_of_uniqueDoctorIds.
    unfold handleCheckboxChange; cbn [main_surgeon_id participating_ids].
    case_bool_decide.
    - rewrite list_elem_of_In, filter_In, <- list_elem_of_In, bool_decide_eq_true.
      done.
    - rewrite elem_of_app, list_elem_of_singleton. done. }
  split.
  - rewrite feeEffect_lookup. cbn [handleCheckboxChange fees].
    destruct (decide (doctorId ∈ participating_ids formData)) as [Hin | Hin].
    + rewrite (bool_decide_eq_true_2 _ Hin).
      rewrite bool_decide_eq_false_2; [done |]. rewrite Hmem.
      rewrite (bool_decide_eq_true_2 _ Hin). tauto.
    + rewrite (bool_decide_eq_false_2 _ Hin).
      rewrite bool_decide_eq_true_2; [done |]. rewrite Hmem.
      rewrite (bool_decide_eq_false_2 _ Hin). tauto.
  - intros i Hi. rewrite !feeEffect_lookup. cbn [handleCheckboxChange fees].
    assert (Hiff : i ∈ uniqueDoctorIds (handleCheckboxChange doctorId formData)
                   ↔ i ∈ uniqueDoctorIds formData).
    { rewrite Hmem, elem_of_uniqueDoctorIds. case_bool_decide; tauto. }
    destruct (decide (i ∈ uniqueDoctorIds formData)) as [Hm | Hm].
    + by rewrite !bool_decide_eq_true_2 by tauto.
    + by rewrite !bool_decide_eq_false_2 by tauto.
Qed.

(** C3.  After the effect that follows a change of the main surgeon or of
    the participants, the keys of the fee map are exactly the non-empty
    ids among the main surgeon and the participants; a member keeps the
    fee it had and a member without an entry gets 0; the entry of anyone
    else is gone; the ids and the other fields of the form are
    untouched. *)
Theorem feeEffect_reconciles {R} (formData : FormData R) :
  let member := fun i =>
    i ≠ "" ∧ (i = main_surgeon_id formData ∨ i ∈ participating_ids formData) in
  dom (fees (feeEffect formData))
  = list_to_set (main_surgeon_id formData :: participating_ids formData) ∖ {[""]}
  ∧ (∀ i, i ∈ dom (fees (feeEffect formData)) ↔ member i)
  ∧ (∀ i v, member i → fees formData !! i = Some v →
       fees (feeEffect formData) !! i = Some v)
  ∧ (∀ i, member i → fees formData !! i = None →
       fees (feeEffect formData) !! i = Some 0)
  ∧ (∀ i, ¬ member i → fees (feeEffect formData) !! i = None)
  ∧ main_surgeon_id (feeEffect formData) = main_surgeon_id formData
  ∧ participating_ids (feeEffect formData) = participating_ids formData
  ∧ rest (feeEffect formData) = rest formData.
Proof.
  intros member.
  assert (Hlook : ∀ i, fees (feeEffect formData) !! i
    = if bool_decide (member i) then Some (default 0 (fees formData !! i)) else None).
  { intros i. rewrite feeEffect_lookup.
    destruct (decide (i ∈ uniqueDoctorIds formData)) as [Hi | Hi].
    - rewrite (bool_decide_eq_true_2 _ Hi).
      apply elem_of_uniqueDoctorIds in Hi. by rewrite bool_decide_eq_true_2.
    - rewrite (bool_decide_eq_false_2 _ Hi).
      rewrite elem_of_uniqueDoctorIds in Hi. by rewrite bool_decide_eq_false_2. }
  assert (Hdom : ∀ i, i ∈ dom (fees (feeEffect formData)) ↔ member i).
  { intros i. rewrite elem_of_dom, Hlook.
    destruct (decide (member i)) as [Hi | Hi].
    - rewrite (bool_decide_eq_true_2 _ Hi). split; [done | by eexists].
    - rewrite (bool_decide_eq_false_2 _ Hi). split; [by intros [? ?] | done]. }
  split.
  { apply set_eq. intros i. rewrite Hdom. unfold member.
    rewrite elem_of_difference, elem_of_list_to_set, elem_of_cons,
      elem_of_singleton. tauto. }
  split; [exact Hdom |]. split.
  { intros i v Hi Hv. by rewrite Hlook, bool_decide_eq_true_2, Hv. }
  split.
  { intros i Hi Hv. by rewrite Hlook, bool_decide_eq_true_2, Hv. }
  split.
  { intros i Hi. by rewrite Hlook, bool_decide_eq_false_2. }
  done.
Qed.

(** A form with main surgeon A, participants B and C, and fees for A and
    for D, who has left the team. *)
Lemma feeEffect_scenario :
  let formData := {| main_surgeon_id := "A"; participating_ids := ["B"; "C"; "B"];
                     fees := <["A" := 1000]> {["D" := 300]}; rest := () |} in
  fees (feeEffect formData) !! "A" = Some 1000
  ∧ fees (feeEffect formData) !! "B" = Some 0
  ∧ fees (feeEffect formData) !! "C" = Some 0
  ∧ fees (feeEffect formData) !! "D" = None
  ∧ size (fees (feeEffect formData)) = 3%nat.
Proof. vm_compute. auto. Qed.

End Fees.

(** * Attachment paths *)

Section Paths.
Import Upload.

Lemma isAllowed_underscore : isAllowed underscore = true.
Proof. reflexivity. Qed.

Lemma isAllowed_not_space c : isAllowed c = true → isSpace c = false.
Proof.
  intros Ha. apply not_true_iff_false. intros Hs.
  unfold isAllowed, isSpace in *.
  rewrite ?orb_true_iff, ?andb_true_iff, ?Z.leb_le, ?Z.eqb_eq in Ha, Hs. lia.
Qed.

Lemma isAllowed_not_mark c : isAllowed c = true → isCombiningMark c = false.
Proof.
  intros Ha. apply not_true_iff_false. intros Hs.
  unfold isAllowed, isCombiningMark in *.
  rewrite ?orb_true_iff, ?andb_true_iff, ?Z.leb_le, ?Z.eqb_eq in Ha, Hs. lia.
Qed.

Lemma isSpace_not_allowed c : isSpace c = true → isAllowed c = false.
Proof.
  intros H. destruct (isAllowed c) eqn:Ha; [| done].
  apply isAllowed_not_space in Ha. congruence.
Qed.

Lemma replaceDisallowed_allowed s :
  Forall (fun c => isAllowed c = true) (replaceDisallowed s).
Proof.
  unfold replaceDisallowed. apply Forall_fmap, Forall_forall. intros c _. simpl.
  destruct (isAllowed c) eqn:H; [done | apply isAllowed_underscore].
Qed.

Lemma replaceSpaceRuns_id s :
  Forall (fun c => isSpace c = false) s → replaceSpaceRuns s = s.
Proof.
  induction 1 as [| c l Hc _ IH]; simpl; [done |]. by rewrite Hc, IH.
Qed.

Lemma sanitizeFilename_steps (normalizeNFD : ustring → ustring) name :
  sanitizeFilename normalizeNFD name
  = replaceDisallowed (stripMarks (normalizeNFD name)).
Proof.
  unfold sanitizeFilename. apply replaceSpaceRuns_id.
  eapply Forall_impl; [apply replaceDisallowed_allowed |].
  intros c. apply isAllowed_not_space.
Qed.

Lemma sanitizeFilename_allowed (normalizeNFD : ustring → ustring) name :
  Forall (fun c => isAllowed c = true) (sanitizeFilename normalizeNFD name).
Proof. rewrite sanitizeFilename_steps. apply replaceDisallowed_allowed. Qed.

(** C9, as amended.  In the four-state variant the path is
    [ownerId/ms-sanitized]: the sanitized name has only characters of
    [a-zA-Z0-9.-_]; it is the decomposed name without its combining marks
    (so the base letter of an accented letter stays), each remaining
    character kept if allowed and replaced by an underscore otherwise,
    white space included.  In index.tsx the path is [ownerId/ms-name] with
    the name of the file as it is. *)
Theorem filePath_convention (normalizeNFD : ustring → ustring)
    (ownerId : ustring) (now : Z) (fileName : ustring) :
  filePath4 normalizeNFD ownerId now fileName
  = ownerId ++ codes "/" ++ codes (pretty now) ++ codes "-"
    ++ sanitizeFilename normalizeNFD fileName
  ∧ Forall (fun c => isAllowed c = true) (sanitizeFilename normalizeNFD fileName)
  ∧ sanitizeFilename normalizeNFD fileName
    = map (fun c => if isAllowed c then c else underscore)
          (List.filter (fun c => negb (isCombiningMark c)) (normalizeNFD fileName))
  ∧ (∀ c, isSpace c = true → isAllowed c = false)
  ∧ (∀ base mark, isAllowed base = true → isCombiningMark mark = true →
       replaceDisallowed (stripMarks [base; mark]) = [base])
  ∧ filePath ownerId now fileName
    = ownerId ++ codes "/" ++ codes (pretty now) ++ codes "-" ++ fileName.
Proof.
  split; [done |]. split; [apply sanitizeFilename_allowed |].
  split; [apply sanitizeFilename_steps |].
  split; [apply isSpace_not_allowed |]. split; [| done].
  intros base mark Hb Hm. unfold stripMarks, replaceDisallowed. simpl.
  rewrite (isAllowed_not_mark base Hb).
  rewrite Hm. simpl. by rewrite Hb.
Qed.

Lemma filePath_convention_witness :
  replaceDisallowed (stripMarks [99; 807]) = [99]
  ∧ filePath4 normalizePt (codes "u1") 1700000000000 acao_png
    = codes "u1/1700000000000-acao_1.png".
Proof.
  split.
  - apply (filePath_convention normalizePt [] 0 []); reflexivity.
  - vm_compute. reflexivity.
Defined.

(** C9 fails on index.tsx: the space and the accented letters of the name
    of the file are in the path. *)
Lemma filePath_convention_counterexample :
  filePath (codes "u1") 1700000000000 acao_png
  = codes "u1/1700000000000-" ++ acao_png
  ∧ ¬ Forall (fun c => isAllowed c = true)
        (filePath (codes "u1") 1700000000000 acao_png).
Proof.
  split; [vm_compute; reflexivity |].
  intros H. rewrite Forall_forall in H.
  specialize (H 32). assert (isAllowed 32 = true) as Habs; [| discriminate Habs].
  apply H. vm_compute. repeat (first [apply list_elem_of_here | apply list_elem_of_further]).
Qed.

End Paths.

(** * Time of day *)

Section TimeOfDay.
Import JsDate.

Lemma HourFromTime_range t : 0 ≤ HourFromTime t ≤ 23.
Proof. unfold HourFromTime. dlia. Qed.

Lemma MinFromTime_range t : 0 ≤ MinFromTime t ≤ 59.
Proof. unfold MinFromTime. dlia. Qed.

Lemma SecFromTime_range t : 0 ≤ SecFromTime t ≤ 59.
Proof. unfold SecFromTime. dlia. Qed.


Lemma MakeTime_range h m s ms :
  0 ≤ h ≤ 23 → 0 ≤ m ≤ 59 → 0 ≤ s ≤ 59 → 0 ≤ ms ≤ 999 →
  0 ≤ MakeTime h m s ms < msPerDay.
Proof.
  unfold MakeTime, msPerDay, msPerHour, msPerMinute, msPerSecond. lia.
Qed.

(** The clock fields of a time value assembled from a day and a time. *)
Lemma clock_of_MakeDate d h m s ms :
  0 ≤ h ≤ 23 → 0 ≤ m ≤ 59 → 0 ≤ s ≤ 59 → 0 ≤ ms ≤ 999 →
  HourFromTime (MakeDate d (MakeTime h m s ms)) = h
  ∧ MinFromTime (MakeDate d (MakeTime h m s ms)) = m
  ∧ SecFromTime (MakeDate d (MakeTime h m s ms)) = s
  ∧ msFromTime (MakeDate d (MakeTime h m s ms)) = ms.
Proof.
  intros Hh Hm Hs Hms.
  unfold HourFromTime, MinFromTime, SecFromTime, msFromTime, MakeDate, MakeTime,
    msPerDay, msPerHour, msPerMinute, msPerSecond.
  repeat split; dlia.
Qed.

(** Year, month and date depend on the day only. *)
Lemma civil_same_day t1 t2 :
  Day t1 = Day t2 →
  YearFromTime t1 = YearFromTime t2 ∧ MonthFromTime t1 = MonthFromTime t2
  ∧ DateFromTime t1 = DateFromTime t2.
Proof.
  intros H.
  assert (Hy : YearFromTime t1 = YearFromTime t2) by (unfold YearFromTime; by rewrite H).
  assert (Hw : DayWithinYear t1 = DayWithinYear t2)
    by (unfold DayWithinYear; by rewrite H, Hy).
  assert (Hl : InLeapYear t1 = InLeapYear t2) by (unfold InLeapYear; by rewrite Hy).
  assert (Hm : MonthFromTime t1 = MonthFromTime t2)
    by (unfold MonthFromTime; by rewrite Hw, Hl).
  split; [done |]. split; [done |].
  unfold DateFromTime. by rewrite Hw, Hl, Hm.
Qed.





End TimeOfDay.

(** * Numbers written and read back *)

Section Digits.
Import JsDate.

Lemma forallb_seqZ (P : Z → bool) lo n :
  forallb P (seqZ lo n) = true → ∀ x, lo ≤ x < lo + n → P x = true.
Proof.
  intros H x Hx. rewrite forallb_forall in H. apply H.
  apply list_elem_of_In, elem_of_seqZ. lia.
Qed.

Lemma pad2_twoDigits n :
  0 ≤ n ≤ 99 → padStart 2 "0" (pretty n) = twoDigits n.
Proof.
  intros Hn.
  apply String.eqb_eq.
  apply (forallb_seqZ
           (fun k => String.eqb (padStart 2 "0" (pretty k)) (twoDigits k)) 0 100);
    [vm_compute; reflexivity | lia].
Qed.


Lemma digitVal_digitChar k : 0 ≤ k ≤ 9 → digitVal (digitChar k) = Some k.
Proof.
  intros Hk.
  assert (k = 0 ∨ k = 1 ∨ k = 2 ∨ k = 3 ∨ k = 4 ∨ k = 5 ∨ k = 6 ∨ k = 7
          ∨ k = 8 ∨ k = 9) as Hc by lia.
  repeat (destruct Hc as [-> | Hc]; [reflexivity |]). by subst.
Qed.

Lemma parseYear_digit k r :
  0 ≤ k ≤ 9 → parseYear (String (digitChar k) r) = digits 4 0 (String (digitChar k) r).
Proof.
  intros Hk.
  assert (k = 0 ∨ k = 1 ∨ k = 2 ∨ k = 3 ∨ k = 4 ∨ k = 5 ∨ k = 6 ∨ k = 7
          ∨ k = 8 ∨ k = 9) as Hc by lia.
  repeat (destruct Hc as [-> | Hc]; [reflexivity |]). by subst.
Qed.

Lemma append_cons c s r : String c s +:+ r = String c (s +:+ r).
Proof. reflexivity. Qed.

Lemma append_nil r : "" +:+ r = r.
Proof. reflexivity. Qed.

Lemma digits_two acc a b r :
  0 ≤ a ≤ 9 → 0 ≤ b ≤ 9 →
  digits 2 acc (String (digitChar a) (String (digitChar b) r))
  = Some (10 * (10 * acc + a) + b, r).
Proof.
  intros Ha Hb. cbn [digits].
  rewrite (digitVal_digitChar a Ha). cbn [mbind option_bind].
  rewrite (digitVal_digitChar b Hb). reflexivity.
Qed.

Lemma digits_twoDigits n r :
  0 ≤ n ≤ 99 → digits 2 0 (twoDigits n +:+ r) = Some (n, r).
Proof.
  intros Hn. unfold twoDigits. rewrite !append_cons, append_nil.
  rewrite digits_two by dlia. f_equal. f_equal. dlia.
Qed.

Lemma digits_fourDigits n r :
  0 ≤ n ≤ 9999 → digits 4 0 (fourDigits n +:+ r) = Some (n, r).
Proof.
  intros Hn. unfold fourDigits, twoDigits. rewrite !append_cons, append_nil.
  cbn [digits].
  rewrite (digitVal_digitChar (n / 1000)) by dlia. cbn [mbind option_bind].
  rewrite (digitVal_digitChar (n / 100 mod 10)) by dlia. cbn [mbind option_bind].
  rewrite (digitVal_digitChar (n mod 100 / 10)) by dlia. cbn [mbind option_bind].
  rewrite (digitVal_digitChar (n mod 100 mod 10)) by dlia. cbn [mbind option_bind].
  f_equal. f_equal. dlia.
Qed.

Lemma parseYear_fourDigits n r :
  0 ≤ n ≤ 9999 → parseYear (fourDigits n +:+ r) = Some (n, r).
Proof.
  intros Hn. rewrite <- digits_fourDigits by done.
  unfold fourDigits. rewrite append_cons. apply parseYear_digit. dlia.
Qed.

Lemma digits_twoDigits_end n :
  0 ≤ n ≤ 99 → digits 2 0 (twoDigits n) = Some (n, "").
Proof.
  intros Hn. unfold twoDigits.
  rewrite digits_two by dlia. f_equal. f_equal. dlia.
Qed.


End Digits.

(** * Reschedule by drag: the minute-resolution string *)

Section MinuteString.
Import JsDate App.

Lemma local_fields tza Y M D h mi sec ms :
  0 ≤ M ≤ 11 → 1 ≤ D ≤ DaysInMonth Y M →
  0 ≤ h ≤ 23 → 0 ≤ mi ≤ 59 → 0 ≤ sec ≤ 59 → 0 ≤ ms ≤ 999 →
  let t := UTC tza (MakeDate (MakeDay Y M D) (MakeTime h mi sec ms)) in
  getFullYear tza t = Y ∧ getMonth tza t = M ∧ getDate tza t = D
  ∧ getHours tza t = h ∧ getMinutes tza t = mi ∧ getSeconds tza t = sec
  ∧ getMilliseconds tza t = ms.
Proof.
  intros HM HD Hh Hmi Hs Hms t. subst t.
  unfold getFullYear, getMonth, getDate, getHours, getMinutes, getSeconds,
    getMilliseconds. rewrite LocalTime_UTC.
  pose proof (MakeTime_range h mi sec ms Hh Hmi Hs Hms) as Hr.
  pose proof (civil_of_MakeDay Y M D _ HM HD Hr) as (H1 & H2 & H3).
  pose proof (clock_of_MakeDate (MakeDay Y M D) h mi sec ms Hh Hmi Hs Hms)
    as (H4 & H5 & H6 & H7).
  repeat split; assumption.
Qed.

Lemma getDate_range tza t :
  1 ≤ getDate tza t ≤ DaysInMonth (getFullYear tza t) (getMonth tza t).
Proof. apply DateFromTime_range. Qed.

Lemma getDate_le_31 tza t : 1 ≤ getDate tza t ≤ 31.
Proof.
  pose proof (getDate_range tza t).
  pose proof (DaysInMonth_range (getFullYear tza t) (getMonth tza t)
                (getMonth_range tza t)). lia.
Qed.




End MinuteString.

(** * [toISOString] read back by [Date.parse] *)

Section IsoString.
Import JsDate.


Lemma pad4_fourDigits n : 0 ≤ n ≤ 9999 → pad0 4 n = fourDigits n.
Proof.
  intros Hn. apply String.eqb_eq.
  apply (forallb_seqZ (fun k => String.eqb (pad0 4 k) (fourDigits k)) 0 10000);
    [vm_compute; reflexivity | lia].
Qed.


(** A time value is its day and its clock. *)
Lemma MakeDay_civil t :
  MakeDay (YearFromTime t) (MonthFromTime t) (DateFromTime t) = Day t.
Proof.
  rewrite MakeDay_in_year by apply MonthFromTime_range.
  unfold DateFromTime. rewrite InLeapYear_leapOfYear. unfold DayWithinYear. lia.
Qed.



End IsoString.

(** * Reschedule by drag *)

Section Reschedule.
Import JsDate App.



(** After the replacement the first event with the id is the updated one. *)
Lemma local_find_map (prev : list LocalStore.Surgery) surgeryId s0 upd :
  List.find (fun s => bool_decide (LocalStore.id s = surgeryId)) prev = Some s0 →
  LocalStore.id upd = surgeryId →
  List.find (fun s => bool_decide (LocalStore.id s = surgeryId))
    (map (fun s => if bool_decide (LocalStore.id s = surgeryId) then upd else s) prev)
  = Some upd.
Proof.
  intros Hf Hu. induction prev as [| s l IH]; simpl in *; [done |].
  destruct (bool_decide (LocalStore.id s = surgeryId)) eqn:Hs.
  - by rewrite bool_decide_eq_true_2.
  - rewrite Hs. by apply IH.
Qed.




End Reschedule.

Section RescheduleTime.
Import JsDate App.


Lemma handleSurgeryDrop_writes tza surgeries dbError surgeryId newDate s :
  List.find (fun s => bool_decide (id s = surgeryId)) surgeries = Some s →
  handleSurgeryDrop tza surgeries dbError surgeryId newDate
  = Returned [update_date_time surgeryId
                (newDateTimeString tza newDate (Date_of tza (date_time s)));
              dropToast dbError].
Proof. intros Hf. unfold handleSurgeryDrop. by rewrite Hf. Qed.


(** The scenario of the specification, with UTC as the local zone: the
    event at 2024-03-10T14:30:00Z dragged to 15 March 2024. *)
Lemma reschedule_scenario :
  let s := exampleSurgery 7 (Some "2024-03-10T14:30:00Z") Agendada ∅ in
  handleSurgeryDrop4 0 [s] None 7 (Date_ymd 0 2024 2 15)
  = Returned [update_date_time 7 "2024-03-15T14:30:00.000Z";
              addToast "Cirurgia reagendada com sucesso!" success]
  ∧ handleSurgeryDrop4 (-10800000) [s] None 7 (Date_ymd (-10800000) 2024 2 15)
    = Returned [update_date_time 7 "2024-03-15T14:30:00.000Z";
                addToast "Cirurgia reagendada com sucesso!" success]
  ∧ handleSurgeryDrop 0 [s] None 7 (Date_ymd 0 2024 2 15)
    = Returned [update_date_time 7 "2024-03-15T14:30";
                addToast "Cirurgia reagendada com sucesso!" success].
Proof. vm_compute. auto. Qed.

(** East of Greenwich the same drag is written with the UTC date of
    the day before: year, month and day are those of local time. *)
Lemma reschedule_scenario_east :
  let s := exampleSurgery 7 (Some "2024-03-10T14:30:00Z") Agendada ∅ in
  handleSurgeryDrop4 36000000 [s] None 7 (Date_ymd 36000000 2024 2 15)
  = Returned [update_date_time 7 "2024-03-14T14:30:00.000Z";
              addToast "Cirurgia reagendada com sucesso!" success].
Proof. vm_compute. reflexivity. Qed.



End RescheduleTime.

Section RescheduleTwice.
Import JsDate App.

Lemma find_map_written (surgeries : list Surgery) surgeryId s str :
  List.find (fun s => bool_decide (id s = surgeryId)) surgeries = Some s →
  List.find (fun s => bool_decide (id s = surgeryId))
    (map (fun x => if bool_decide (id x = surgeryId) then written str x else x)
         surgeries)
  = Some (written str s).
Proof.
  intros Hf. induction surgeries as [| x l IH]; simpl in *; [done |].
  destruct (bool_decide (id x = surgeryId)) eqn:Hx.
  - simpl. rewrite Hx. congruence.
  - rewrite Hx. by apply IH.
Qed.





End RescheduleTwice.

Section RescheduleFrame.
Import JsDate App.

Lemma NoDup_id_eq (prev : list LocalStore.Surgery) s s0 :
  NoDup (map LocalStore.id prev) → s ∈ prev → s0 ∈ prev →
  LocalStore.id s = LocalStore.id s0 → s = s0.
Proof.
  intros Hnd Hs Hs0 Hid.
  apply list_elem_of_lookup in Hs as [i Hi].
  apply list_elem_of_lookup in Hs0 as [j Hj].
  assert (i = j).
  { eapply NoDup_lookup; [exact Hnd | |].
    - by rewrite list_lookup_fmap, Hi.
    - rewrite list_lookup_fmap, Hj. simpl. by rewrite Hid. }
  subst. congruence.
Qed.

(** C10.  When the drag updates an event, the local-storage variant
    returns a collection of the same length in which every event with
    another id is the event it was, at the place it was, and, ids being
    unique, the event with the id differs from what it was in its
    [dateTime] only; index.tsx and the four-state variant make one write,
    on the column [date_time] of the row with the id, and a row that has
    received it differs in [date_time] only. *)
Theorem handleSurgeryDrop_frame (tza newDate : Z)
    (prev : list LocalStore.Surgery) (localId : string) (s0 : LocalStore.Surgery)
    (surgeries : list Surgery) (dbError : option string) (surgeryId : Z) :
  List.find (fun s => bool_decide (LocalStore.id s = localId)) prev = Some s0 →
  NoDup (map LocalStore.id prev) →
  let str := newDateTimeString tza newDate (Date_parse tza (LocalStore.dateTime s0)) in
  let next := (LocalStore.handleSurgeryDrop tza localId newDate prev).1 in
  length next = length prev
  ∧ (∀ i s, prev !! i = Some s →
       next !! i = Some (if bool_decide (LocalStore.id s = localId)
                         then LocalStore.set_dateTime str s else s))
  ∧ (∀ v s,
       LocalStore.dateTime (LocalStore.set_dateTime v s) = v
       ∧ LocalStore.id (LocalStore.set_dateTime v s) = LocalStore.id s
       ∧ LocalStore.patientName (LocalStore.set_dateTime v s) = LocalStore.patientName s
       ∧ LocalStore.mainSurgeonId (LocalStore.set_dateTime v s) = LocalStore.mainSurgeonId s
       ∧ LocalStore.participatingIds (LocalStore.set_dateTime v s)
         = LocalStore.participatingIds s
       ∧ LocalStore.hospitalId (LocalStore.set_dateTime v s) = LocalStore.hospitalId s
       ∧ LocalStore.insuranceId (LocalStore.set_dateTime v s) = LocalStore.insuranceId s
       ∧ LocalStore.authStatus (LocalStore.set_dateTime v s) = LocalStore.authStatus s
       ∧ LocalStore.surgeryStatus (LocalStore.set_dateTime v s) = LocalStore.surgeryStatus s
       ∧ LocalStore.fees (LocalStore.set_dateTime v s) = LocalStore.fees s
       ∧ LocalStore.materialCost (LocalStore.set_dateTime v s) = LocalStore.materialCost s
       ∧ LocalStore.notes (LocalStore.set_dateTime v s) = LocalStore.notes s
       ∧ LocalStore.preOpXRay (LocalStore.set_dateTime v s) = LocalStore.preOpXRay s
       ∧ LocalStore.postOpXRay (LocalStore.set_dateTime v s) = LocalStore.postOpXRay s)
  ∧ (∀ s, List.find (fun s => bool_decide (id s = surgeryId)) surgeries = Some s →
       ∃ v, handleSurgeryDrop tza surgeries dbError surgeryId newDate
            = Returned [update_date_time surgeryId v; dropToast dbError])
  ∧ (∀ v s,
       date_time (written v s) = Some v
       ∧ id (written v s) = id s
       ∧ patient_name (written v s) = patient_name s
       ∧ main_surgeon_id (written v s) = main_surgeon_id s
       ∧ participating_ids (written v s) = participating_ids s
       ∧ hospital_id (written v s) = hospital_id s
       ∧ insurance_id (written v s) = insurance_id s
       ∧ auth_status (written v s) = auth_status s
       ∧ surgery_status (written v s) = surgery_status s
       ∧ fees (written v s) = fees s
       ∧ material_cost (written v s) = material_cost s
       ∧ notes (written v s) = notes s
       ∧ pre_op_xray_path (written v s) = pre_op_xray_path s
       ∧ post_op_xray_path (written v s) = post_op_xray_path s).
Proof.
  intros Hf Hnd str next.
  assert (Hnext : next
    = map (fun s => if bool_decide (LocalStore.id s = localId)
                    then LocalStore.set_dateTime str s0 else s) prev).
  { unfold next, LocalStore.handleSurgeryDrop. by rewrite Hf. }
  split; [by rewrite Hnext, length_map |]. split.
  { intros i s Hi. rewrite Hnext, list_lookup_fmap, Hi. simpl.
    case_bool_decide as Hs; [| done].
    apply find_some in Hf as [Hin Hb]. apply bool_decide_eq_true in Hb.
    assert (s = s0) as ->; [| done].
    eapply NoDup_id_eq; [exact Hnd | | by apply list_elem_of_In | congruence].
    apply list_elem_of_lookup. eauto. }
  split; [intros v s; by repeat split |]. split.
  { intros s Hs. eexists. by apply handleSurgeryDrop_writes. }
  intros v s. by repeat split.
Qed.

Lemma handleSurgeryDrop_frame_witness :
  let a := LocalStore.exampleSurgery "a" "2024-03-10T14:30" in
  let b := LocalStore.exampleSurgery "b" "2024-03-11T09:00" in
  let next := (LocalStore.handleSurgeryDrop 0 "a" (Date_ymd 0 2024 2 15) [a; b]).1 in
  next !! 0%nat = Some (LocalStore.set_dateTime "2024-03-15T14:30" a)
  ∧ next !! 1%nat = Some b.
Proof.
  intros a b next.
  pose proof (handleSurgeryDrop_frame 0 (Date_ymd 0 2024 2 15) [a; b] "a" a
                [] None 0 eq_refl) as H.
  destruct H as (_ & H & _).
  - apply NoDup_cons. split.
    + rewrite list_elem_of_singleton. discriminate.
    + apply NoDup_singleton.
  - split; [exact (H 0%nat a eq_refl) | exact (H 1%nat b eq_refl)].
Defined.

End RescheduleFrame.

(** * The model of [Date] on known dates *)

Section KnownDates.
Import JsDate App.

(** The epoch is Thursday 1 January 1970; 1900 is not a leap year, 2000
    and 2024 are. *)
Lemma epoch_is_thursday :
  toISOString 0 = "1970-01-01T00:00:00.000Z" ∧ WeekDay 0 = 4
  ∧ DaysInYear 1900 = 365 ∧ DaysInYear 2000 = 366 ∧ DaysInYear 2024 = 366.
Proof. vm_compute. auto. Qed.

Lemma parse_known_dates :
  Date_parse 0 "2024-03-10T14:30:00Z" = Some 1710081000000
  ∧ Date_parse (-10800000) "2024-03-10T11:30" = Some 1710081000000
  ∧ Date_parse 0 "2024-03-10T11:30:00-03:00" = Some 1710081000000
  ∧ Date_parse (-10800000) "2024-03-10" = Some 1710028800000
  ∧ Date_parse 0 "10/03/2024" = None.
Proof. vm_compute. auto. Qed.

(** index.tsx has no test on the timestamp: were [date_time] [null]
    (its type says it is not), [new Date(null)] is the epoch and the drag
    writes the clock of the epoch. *)
Lemma handleSurgeryDrop_null_is_epoch :
  handleSurgeryDrop 0 [exampleSurgery 7 None Agendada ∅] None 7 (Date_ymd 0 2024 2 15)
  = Returned [update_date_time 7 "2024-03-15T00:00";
              addToast "Cirurgia reagendada com sucesso!" success].
Proof. vm_compute. reflexivity. Qed.

End KnownDates.

(** * The week grid and the navigation *)

Section WeekGrid.
Import JsDate CalendarView.

Lemma MakeDay_add y m d k :
  0 ≤ m ≤ 11 → MakeDay y m (d + k) = MakeDay y m d + k.
Proof. intros Hm. rewrite !MakeDay_in_year by done. lia. Qed.

(** [setDate] with the date of the month moved by [k] moves the time
    value by [k] days. *)
Lemma setDate_shift tza t k :
  setDate tza t (getDate tza t + k) = t + k * msPerDay.
Proof.
  unfold setDate, getDate.
  rewrite MakeDay_add by apply MonthFromTime_range.
  rewrite MakeDay_civil. unfold UTC, MakeDate.
  pose proof (MakeDate_Day (LocalTime tza t)) as H. unfold MakeDate in H.
  unfold LocalTime in *. lia.
Qed.

Lemma weekGrid_cells tza currentDate :
  weekGrid tza currentDate
  = map (fun i => currentDate + (i - getDay tza currentDate) * msPerDay) (seqZ 0 7).
Proof.
  unfold weekGrid.
  replace (getDate tza currentDate - getDay tza currentDate)
    with (getDate tza currentDate + - getDay tza currentDate) by lia.
  rewrite setDate_shift. apply map_ext. intros i.
  rewrite setDate_shift. lia.
Qed.

Lemma getDay_shift tza t k : getDay tza (t + k * msPerDay) = (getDay tza t + k) mod 7.
Proof. unfold getDay, WeekDay, Day, LocalTime, msPerDay. dlia. Qed.

Lemma clock_shift tza t k :
  getHours tza (t + k * msPerDay) = getHours tza t
  ∧ getMinutes tza (t + k * msPerDay) = getMinutes tza t
  ∧ getSeconds tza (t + k * msPerDay) = getSeconds tza t
  ∧ getMilliseconds tza (t + k * msPerDay) = getMilliseconds tza t.
Proof.
  unfold getHours, getMinutes, getSeconds, getMilliseconds, HourFromTime,
    MinFromTime, SecFromTime, msFromTime, LocalTime, msPerDay, msPerHour,
    msPerMinute, msPerSecond.
  repeat split; dlia.
Qed.

(** X1.  The week grid has seven cells; cell [i] (0 to 6) is the reference
    date moved by whole days to the weekday [i], with the clock of the
    reference date; the first cell is the Sunday on or before the
    reference date and the reference date itself is the cell of its own
    weekday. *)
Theorem weekGrid_week (tza currentDate : Z) :
  length (weekGrid tza currentDate) = 7%nat
  ∧ (∀ i : nat, (i < 7)%nat →
       ∃ c, weekGrid tza currentDate !! i = Some c
            ∧ c = currentDate + (Z.of_nat i - getDay tza currentDate) * msPerDay
            ∧ getDay tza c = Z.of_nat i
            ∧ getHours tza c = getHours tza currentDate
            ∧ getMinutes tza c = getMinutes tza currentDate
            ∧ getSeconds tza c = getSeconds tza currentDate)
  ∧ (∃ first, weekGrid tza currentDate !! 0%nat = Some first
              ∧ getDay tza first = 0
              ∧ 0 ≤ currentDate - first < 7 * msPerDay)
  ∧ weekGrid tza currentDate !! Z.to_nat (getDay tza currentDate) = Some currentDate.
Proof.
  pose proof (getDay_range tza currentDate) as Hw.
  assert (Hcell : ∀ i : nat, (i < 7)%nat →
    weekGrid tza currentDate !! i
    = Some (currentDate + (Z.of_nat i - getDay tza currentDate) * msPerDay)).
  { intros i Hi. rewrite weekGrid_cells, list_lookup_fmap.
    rewrite lookup_seqZ_lt by lia. simpl. reflexivity. }
  split; [by rewrite weekGrid_cells, length_map, length_seqZ |].
  split.
  { intros i Hi.
    pose proof (clock_shift tza currentDate (Z.of_nat i - getDay tza currentDate))
      as (H1 & H2 & H3 & _).
    exists (currentDate + (Z.of_nat i - getDay tza currentDate) * msPerDay).
    split; [by apply Hcell |]. split; [reflexivity |].
    split; [rewrite getDay_shift; dlia |].
    split; [exact H1 |]. split; [exact H2 | exact H3]. }
  split.
  { eexists. split; [apply Hcell; lia |]. split; [rewrite getDay_shift; dlia |].
    unfold msPerDay. lia. }
  rewrite Hcell by lia. f_equal. rewrite Z2Nat.id by lia. lia.
Qed.

Lemma weekGrid_week_witness :
  ∃ c, weekGrid 0 (Date_ymd 0 2024 2 13) !! 3%nat = Some c ∧ getDay 0 c = 3.
Proof.
  destruct (weekGrid_week 0 (Date_ymd 0 2024 2 13)) as (_ & H & _).
  destruct (H 3%nat) as (c & H1 & _ & H2 & _); [lia |].
  exists c. split; [exact H1 | exact H2].
Defined.

End WeekGrid.

(** * Navigation *)

Section Navigation.
Import JsDate CalendarView.

Lemma MakeDay_norm y mo d :
  MakeDay y mo d = MakeDay (y + mo / 12) (mo mod 12) d.
Proof.
  unfold MakeDay.
  replace (mo mod 12 / 12) with 0 by dlia.
  replace (mo mod 12 mod 12) with (mo mod 12) by dlia.
  by replace (y + mo / 12 + 0) with (y + mo / 12) by lia.
Qed.

Lemma fullYear_late y : 99 < y → fullYear y = y.
Proof.
  intros H. unfold fullYear.
  destruct (Z.leb_spec 0 y); destruct (Z.leb_spec y 99); simpl; lia.
Qed.

(** Day 1 of a month given by any integer: the month is reduced modulo
    12 and the year moves with it. *)
Lemma Date_ymd_first tza year mo :
  getFullYear tza (Date_ymd tza year mo 1) = fullYear year + mo / 12
  ∧ getMonth tza (Date_ymd tza year mo 1) = mo mod 12
  ∧ getDate tza (Date_ymd tza year mo 1) = 1
  ∧ getHours tza (Date_ymd tza year mo 1) = 0
  ∧ getMinutes tza (Date_ymd tza year mo 1) = 0
  ∧ getSeconds tza (Date_ymd tza year mo 1) = 0.
Proof.
  unfold Date_ymd. rewrite MakeDay_norm.
  assert (Hm : 0 ≤ mo mod 12 ≤ 11) by dlia.
  pose proof (DaysInMonth_range (fullYear year + mo / 12) _ Hm) as Hd.
  pose proof (local_fields tza (fullYear year + mo / 12) (mo mod 12) 1 0 0 0 0 Hm
                ltac:(lia) ltac:(lia) ltac:(lia) ltac:(lia) ltac:(lia))
    as (H1 & H2 & H3 & H4 & H5 & H6 & _).
  repeat split; assumption.
Qed.

Lemma YearFromDay_mono d1 d2 : d1 ≤ d2 → YearFromDay d1 ≤ YearFromDay d2.
Proof.
  intros H. pose proof (YearFromDay_spec d1). pose proof (YearFromDay_spec d2).
  destruct (Z.le_gt_cases (YearFromDay d1) (YearFromDay d2)) as [| Hgt]; [done |].
  pose proof (DayFromYear_le (YearFromDay d2 + 1) (YearFromDay d1)). lia.
Qed.

Lemma YearFromDay_back d k :
  0 ≤ k ≤ 365 → YearFromDay d - 1 ≤ YearFromDay (d - k).
Proof.
  intros Hk. pose proof (YearFromDay_spec d) as Hd.
  pose proof (DayFromYear_succ (YearFromDay d - 1)) as Hs.
  replace (YearFromDay d - 1 + 1) with (YearFromDay d) in Hs by lia.
  pose proof (DaysInYear_cases (YearFromDay d - 1)).
  pose proof (YearFromDay_spec (d - k)) as Hk'.
  destruct (Z.le_gt_cases (YearFromDay d - 1) (YearFromDay (d - k))) as [| Hgt];
    [done |].
  pose proof (DayFromYear_le (YearFromDay (d - k) + 1) (YearFromDay d - 1)). lia.
Qed.

Lemma handleNext_month tza d :
  handleNext tza ViewMonth d
  = Date_ymd tza (getFullYear tza d) (getMonth tza d + 1) 1.
Proof. unfold handleNext. reflexivity. Qed.

Lemma handlePrev_month tza d :
  handlePrev tza ViewMonth d
  = Date_ymd tza (getFullYear tza d) (getMonth tza d - 1) 1.
Proof. unfold handlePrev. reflexivity. Qed.

(** X2.  Month navigation (for years after 100): "next" and "previous"
    give local midnight of day 1 of the following and of the preceding
    month, the year changing at December and January; one after the
    other, in either order, gives day 1 of the month one started in. *)
Theorem month_navigation (tza d : Z) :
  100 < getFullYear tza d →
  let y := getFullYear tza d in
  let m := getMonth tza d in
  let next := handleNext tza ViewMonth d in
  let prev := handlePrev tza ViewMonth d in
  (getFullYear tza next, getMonth tza next)
    = (if m =? 11 then (y + 1, 0) else (y, m + 1))
  ∧ (getFullYear tza prev, getMonth tza prev)
    = (if m =? 0 then (y - 1, 11) else (y, m - 1))
  ∧ getDate tza next = 1 ∧ getDate tza prev = 1
  ∧ getHours tza next = 0 ∧ getMinutes tza next = 0 ∧ getSeconds tza next = 0
  ∧ handlePrev tza ViewMonth next = Date_ymd tza y m 1
  ∧ handleNext tza ViewMonth prev = Date_ymd tza y m 1.
Proof.
  intros Hy. cbv zeta.
  rewrite !handleNext_month, !handlePrev_month.
  pose proof (getMonth_range tza d) as Hm.
  set (y := getFullYear tza d) in *. set (m := getMonth tza d) in *.
  pose proof (Date_ymd_first tza y (m + 1)) as (N1 & N2 & N3 & N4 & N5 & N6).
  pose proof (Date_ymd_first tza y (m - 1)) as (P1 & P2 & P3 & _).
  rewrite (fullYear_late y) in N1, P1 by lia.
  set (next := Date_ymd tza y (m + 1) 1) in *.
  set (prev := Date_ymd tza y (m - 1) 1) in *.
  rewrite N1, N2, N3, N4, N5, N6, P1, P2, P3.
  split.
  { destruct (Z.eqb_spec m 11) as [-> | Hne]; [reflexivity |]. f_equal; dlia. }
  split.
  { destruct (Z.eqb_spec m 0) as [-> | Hne]; [reflexivity |]. f_equal; dlia. }
  do 5 (split; [reflexivity |]).
  split.
  - unfold Date_ymd. rewrite !fullYear_late by dlia. do 2 f_equal.
    rewrite (MakeDay_norm (y + (m + 1) / 12)). rewrite (MakeDay_norm y m).
    f_equal; dlia.
  - unfold Date_ymd. rewrite !fullYear_late by dlia. do 2 f_equal.
    rewrite (MakeDay_norm (y + (m - 1) / 12)). rewrite (MakeDay_norm y m).
    f_equal; dlia.
Qed.

Lemma month_navigation_witness :
  let d := Date_ymd 0 2024 11 25 in
  (getFullYear 0 (handleNext 0 ViewMonth d), getMonth 0 (handleNext 0 ViewMonth d))
  = (2025, 0)
  ∧ handlePrev 0 ViewMonth (handleNext 0 ViewMonth d) = Date_ymd 0 2024 11 1.
Proof.
  intros d.
  pose proof (month_navigation 0 d) as H.
  destruct H as (H1 & _ & _ & _ & _ & _ & _ & H2 & _).
  - vm_compute. reflexivity.
  - split; [exact H1 | exact H2].
Defined.

(** Local midnight of the day of [d]. *)
Lemma week_step tza d k :
  99 < getFullYear tza d →
  Date_ymd tza (getFullYear tza d) (getMonth tza d) (getDate tza d + k)
  = d - TimeWithinDay (LocalTime tza d) + k * msPerDay.
Proof.
  intros Hy. unfold Date_ymd. rewrite fullYear_late by done.
  unfold getFullYear, getMonth, getDate.
  rewrite MakeDay_add by apply MonthFromTime_range.
  rewrite MakeDay_civil, MakeTime_0.
  pose proof (MakeDate_Day (LocalTime tza d)) as H.
  unfold UTC, MakeDate, LocalTime in *. lia.
Qed.

Lemma getFullYear_forward tza t k :
  0 ≤ k → getFullYear tza t ≤ getFullYear tza (t + k).
Proof.
  intros Hk. unfold getFullYear, YearFromTime. apply YearFromDay_mono.
  unfold Day, LocalTime, msPerDay. dlia.
Qed.

Lemma getFullYear_backward tza t k :
  0 ≤ k ≤ 8 * msPerDay → getFullYear tza t - 1 ≤ getFullYear tza (t - k).
Proof.
  intros Hk. unfold getFullYear, YearFromTime.
  set (a := Day (LocalTime tza t)). set (b := Day (LocalTime tza (t - k))).
  assert (Hab : 0 ≤ a - b ≤ 365).
  { unfold a, b, Day, LocalTime, msPerDay in *. dlia. }
  replace b with (a - (a - b)) by lia. by apply YearFromDay_back.
Qed.

(** X3.  Week navigation (for years after 100): "next" and "previous"
    give local midnight of the day seven days after and seven days
    before the day of the reference date, so the weekday stays; one
    after the other, in either order, gives local midnight of the day
    one started in. *)
Theorem week_navigation (tza d : Z) :
  100 < getFullYear tza d →
  let midnight := d - TimeWithinDay (LocalTime tza d) in
  handleNext tza ViewWeek d = midnight + 7 * msPerDay
  ∧ handlePrev tza ViewWeek d = midnight - 7 * msPerDay
  ∧ getDay tza (handleNext tza ViewWeek d) = getDay tza d
  ∧ getDay tza (handlePrev tza ViewWeek d) = getDay tza d
  ∧ handlePrev tza ViewWeek (handleNext tza ViewWeek d) = midnight
  ∧ handleNext tza ViewWeek (handlePrev tza ViewWeek d) = midnight.
Proof.
  intros Hy midnight.
  pose proof (TimeWithinDay_range (LocalTime tza d)) as Ht.
  assert (Hn : handleNext tza ViewWeek d = midnight + 7 * msPerDay).
  { unfold handleNext. by rewrite week_step by lia. }
  assert (Hp : handlePrev tza ViewWeek d = midnight - 7 * msPerDay).
  { unfold handlePrev.
    replace (getDate tza d - 7) with (getDate tza d + -7) by lia.
    rewrite week_step by lia. lia. }
  assert (Hmid : ∀ k, TimeWithinDay (LocalTime tza (midnight + k * msPerDay)) = 0).
  { intros k. unfold midnight, TimeWithinDay, LocalTime, msPerDay in *. dlia. }
  split; [exact Hn |]. split; [exact Hp |].
  split.
  { rewrite Hn. unfold midnight, getDay, WeekDay, Day, TimeWithinDay, LocalTime,
      msPerDay in *. dlia. }
  split.
  { rewrite Hp. unfold midnight, getDay, WeekDay, Day, TimeWithinDay, LocalTime,
      msPerDay in *. dlia. }
  split.
  - rewrite Hn. unfold handlePrev.
    replace (getDate tza (midnight + 7 * msPerDay) - 7)
      with (getDate tza (midnight + 7 * msPerDay) + -7) by lia.
    rewrite week_step.
    + rewrite (Hmid 7). lia.
    + pose proof (getFullYear_forward tza d (7 * msPerDay - TimeWithinDay (LocalTime tza d))
                    ltac:(unfold msPerDay in *; lia)) as Hf.
      replace (d + (7 * msPerDay - TimeWithinDay (LocalTime tza d)))
        with (midnight + 7 * msPerDay) in Hf by (unfold midnight; lia).
      lia.
  - rewrite Hp. unfold handleNext.
    replace (midnight - 7 * msPerDay) with (midnight + -7 * msPerDay) by lia.
    rewrite week_step.
    + rewrite (Hmid (-7)). lia.
    + pose proof (getFullYear_backward tza d
                    (TimeWithinDay (LocalTime tza d) + 7 * msPerDay)
                    ltac:(unfold msPerDay in *; lia)) as Hb.
      replace (d - (TimeWithinDay (LocalTime tza d) + 7 * msPerDay))
        with (midnight + -7 * msPerDay) in Hb by (unfold midnight; lia).
      lia.
Qed.

Lemma week_navigation_witness :
  let d := Date_ymd 0 2024 2 13 + 52200000 in
  handleNext 0 ViewWeek d = Date_ymd 0 2024 2 20
  ∧ handlePrev 0 ViewWeek (handleNext 0 ViewWeek d) = Date_ymd 0 2024 2 13.
Proof.
  intros d.
  pose proof (week_navigation 0 d) as H.
  destruct H as (H1 & _ & _ & _ & H2 & _).
  - vm_compute. reflexivity.
  - split; [exact H1 | exact H2].
Defined.

(** [setDate] moves the local time by whole days and reads it back in
    the zone. *)
Lemma zoned_setDate_shift z t k :
  Zoned.setDate z t (Zoned.getDate z t + k)
  = Zoned.UTC_of z (Zoned.LocalTime z t + k * msPerDay).
Proof.
  unfold Zoned.setDate, Zoned.getDate. cbv zeta.
  rewrite MakeDay_add by apply MonthFromTime_range.
  rewrite MakeDay_civil. f_equal.
  pose proof (MakeDate_Day (Zoned.LocalTime z t)) as H.
  unfold MakeDate in *. lia.
Qed.

Lemma local_shift_fields lt k :
  WeekDay (lt + k * msPerDay) = (WeekDay lt + k) mod 7
  ∧ HourFromTime (lt + k * msPerDay) = HourFromTime lt
  ∧ MinFromTime (lt + k * msPerDay) = MinFromTime lt.
Proof.
  unfold WeekDay, Day, HourFromTime, MinFromTime, msPerDay, msPerHour, msPerMinute.
  repeat split; dlia.
Qed.

(** X4.  Week navigation of the local-storage variant, in a zone whose
    offset may change: "next" and "previous" give the time value that
    the zone reads for the local time of the reference date moved by
    seven days.  When that local time exists in the zone, the weekday,
    the hour and the minute are kept and the time value moves by seven
    days less the change of the offset: an hour less or more across a
    change of daylight saving, seven days exactly in a zone of fixed
    offset; and when the zone reads the local time of the reference
    date as the reference date, the opposite move gives it back. *)
Theorem week_navigation_local (z : Zoned.Zone) (d : Z) :
  let lt := Zoned.LocalTime z d in
  let next := LocalStore.handleNext z ViewWeek d in
  let prev := LocalStore.handlePrev z ViewWeek d in
  next = Zoned.UTC_of z (lt + 7 * msPerDay)
  ∧ prev = Zoned.UTC_of z (lt - 7 * msPerDay)
  ∧ (Zoned.LocalTime z next = lt + 7 * msPerDay →
       next - d = 7 * msPerDay - (Zoned.LocalTZA z next - Zoned.LocalTZA z d)
       ∧ Zoned.getDay z next = Zoned.getDay z d
       ∧ Zoned.getHours z next = Zoned.getHours z d
       ∧ Zoned.getMinutes z next = Zoned.getMinutes z d
       ∧ (Zoned.UTC_of z lt = d → LocalStore.handlePrev z ViewWeek next = d))
  ∧ (Zoned.LocalTime z prev = lt - 7 * msPerDay →
       prev - d = - (7 * msPerDay) - (Zoned.LocalTZA z prev - Zoned.LocalTZA z d)
       ∧ Zoned.getDay z prev = Zoned.getDay z d
       ∧ Zoned.getHours z prev = Zoned.getHours z d
       ∧ Zoned.getMinutes z prev = Zoned.getMinutes z d
       ∧ (Zoned.UTC_of z lt = d → LocalStore.handleNext z ViewWeek prev = d))
  ∧ (∀ tza, z = Zoned.fixedZone tza →
       next = d + 7 * msPerDay ∧ prev = d - 7 * msPerDay).
Proof.
  intros lt next prev. subst lt.
  assert (Hn : ∀ t, LocalStore.handleNext z ViewWeek t
                    = Zoned.UTC_of z (Zoned.LocalTime z t + 7 * msPerDay)).
  { intros t. unfold LocalStore.handleNext. apply zoned_setDate_shift. }
  assert (Hp : ∀ t, LocalStore.handlePrev z ViewWeek t
                    = Zoned.UTC_of z (Zoned.LocalTime z t - 7 * msPerDay)).
  { intros t. unfold LocalStore.handlePrev.
    replace (Zoned.getDate z t - 7) with (Zoned.getDate z t + -7) by lia.
    rewrite zoned_setDate_shift. f_equal; lia. }
  split; [apply Hn |]. split; [apply Hp |].
  split.
  { intros Hl.
    pose proof (local_shift_fields (Zoned.LocalTime z d) 7) as (H1 & H2 & H3).
    split; [unfold Zoned.LocalTime in *; lia |].
    unfold Zoned.getDay, Zoned.getHours, Zoned.getMinutes. rewrite Hl.
    split; [rewrite H1; unfold WeekDay; dlia |].
    split; [exact H2 |]. split; [exact H3 |].
    intros Hd. rewrite Hp, Hl. rewrite <- Hd at 2. f_equal; lia. }
  split.
  { intros Hl.
    pose proof (local_shift_fields (Zoned.LocalTime z d) (-7)) as (H1 & H2 & H3).
    replace (Zoned.LocalTime z d + -7 * msPerDay)
      with (Zoned.LocalTime z d - 7 * msPerDay) in * by lia.
    split; [unfold Zoned.LocalTime in *; lia |].
    unfold Zoned.getDay, Zoned.getHours, Zoned.getMinutes. rewrite Hl.
    split; [rewrite H1; unfold WeekDay; dlia |].
    split; [exact H2 |]. split; [exact H3 |].
    intros Hd. rewrite Hn, Hl. rewrite <- Hd at 2. f_equal; lia. }
  intros tza ->. unfold next, prev. rewrite Hn, Hp.
  unfold Zoned.LocalTime, Zoned.fixedZone; simpl. lia.
Qed.

(** From 27 March 2024, 11:00 in Central Europe, "next" gives 3 April,
    11:00 of the summer time: an hour less than seven days later. *)
Lemma week_navigation_local_witness :
  let d := 1711533600000 in
  let next := LocalStore.handleNext Zoned.exampleZone ViewWeek d in
  next = 1712134800000 ∧ next - d = 7 * msPerDay - 3600000
  ∧ Zoned.getHours Zoned.exampleZone next = 11.
Proof.
  intros d next.
  pose proof (week_navigation_local Zoned.exampleZone d) as (_ & _ & H & _).
  destruct H as (H1 & _ & H2 & _); [vm_compute; reflexivity |].
  split; [vm_compute; reflexivity |].
  split; [etrans; [exact H1 | vm_compute; reflexivity] |].
  etrans; [exact H2 | vm_compute; reflexivity].
Defined.
End Navigation.

(** * The local-storage variant: cells of the grid and the collection *)

Section DayCells.
Import JsDate CalendarView LocalStore.

Lemma calendarGrid_shape tza currentDate :
  calendarGrid tza currentDate
  = replicate (Z.to_nat (getDay tza (Date_ymd tza (getFullYear tza currentDate)
                                       (getMonth tza currentDate) 1))) None
    ++ map (fun i => Some (Date_ymd tza (getFullYear tza currentDate)
                             (getMonth tza currentDate) i))
         (seqZ 1 (DaysInMonth (fullYear (getFullYear tza currentDate))
                    (getMonth tza currentDate))).
Proof.
  unfold calendarGrid. cbv zeta.
  rewrite daysInMonth_getDate by apply getMonth_range. reflexivity.
Qed.

(** The cell at a position of the month grid. *)
Lemma calendarGrid_lookup tza currentDate (k : nat) cell :
  let year := getFullYear tza currentDate in
  let month := getMonth tza currentDate in
  let lead := getDay tza (Date_ymd tza year month 1) in
  calendarGrid tza currentDate !! k = Some cell ↔
  (Z.of_nat k < lead ∧ cell = None)
  ∨ (lead ≤ Z.of_nat k < lead + DaysInMonth (fullYear year) month
     ∧ cell = Some (Date_ymd tza year month (Z.of_nat k - lead + 1))).
Proof.
  intros year month lead. rewrite calendarGrid_shape. fold year month lead.
  pose proof (getDay_range tza (Date_ymd tza year month 1)) as Hl. fold lead in Hl.
  rewrite lookup_app_Some, lookup_replicate, length_replicate.
  rewrite list_lookup_fmap, fmap_Some.
  split.
  - intros [[-> Hk] | [Hk (i & Hi & ->)]].
    + left. split; [lia | done].
    + right. apply lookup_seqZ in Hi as [-> Hi].
      split; [lia |]. do 2 f_equal. lia.
  - intros [[Hk ->] | [Hk ->]].
    + left. split; [done | lia].
    + right. split; [lia |]. eexists. split; [| reflexivity].
      apply lookup_seqZ. split; lia.
Qed.

Lemma sameDay_true tza t d :
  sameDay tza (Some t) d = true
  ↔ getFullYear tza t = getFullYear tza d ∧ getMonth tza t = getMonth tza d
    ∧ getDate tza t = getDate tza d.
Proof. unfold sameDay. rewrite !andb_true_iff, !Z.eqb_eq. tauto. Qed.

Lemma elem_of_daySurgeries tza l s d :
  s ∈ daySurgeries tza l (Some d)
  ↔ s ∈ l ∧ sameDay tza (Date_parse tza (dateTime s)) d = true.
Proof.
  unfold daySurgeries. by rewrite list_elem_of_In, filter_In, <- list_elem_of_In.
Qed.

(** X5.  In the month grid of the local-storage variant an event is
    shown in the cell at position [k] exactly when its timestamp is a
    date whose local year and month are those of the grid and whose
    local day of the month [d] gives [k = lead + d - 1], [lead] being the
    number of empty cells; so an event of the month displayed is in one
    cell, that of its day, and an event of another month or with an
    invalid timestamp is in none. *)
Theorem daySurgeries_cell (tza currentDate : Z) (l : list Surgery) (s : Surgery) :
  let year := getFullYear tza currentDate in
  let month := getMonth tza currentDate in
  let lead := getDay tza (Date_ymd tza year month 1) in
  (∀ (k : nat) cell, calendarGrid tza currentDate !! k = Some cell →
     (s ∈ daySurgeries tza l cell
      ↔ s ∈ l ∧ ∃ t, Date_parse tza (dateTime s) = Some t
                     ∧ getFullYear tza t = fullYear year
                     ∧ getMonth tza t = month
                     ∧ Z.of_nat k = lead + getDate tza t - 1))
  ∧ (∀ t, s ∈ l → Date_parse tza (dateTime s) = Some t →
       getFullYear tza t = fullYear year → getMonth tza t = month →
       ∃ cell, calendarGrid tza currentDate !! Z.to_nat (lead + getDate tza t - 1)
               = Some cell
               ∧ s ∈ daySurgeries tza l cell).
Proof.
  intros year month lead.
  pose proof (getMonth_range tza currentDate) as Hm. fold month in Hm.
  pose proof (getDay_range tza (Date_ymd tza year month 1)) as Hl. fold lead in Hl.
  assert (Hcell : ∀ i, 1 ≤ i ≤ DaysInMonth (fullYear year) month →
    (s ∈ daySurgeries tza l (Some (Date_ymd tza year month i))
     ↔ s ∈ l ∧ ∃ t, Date_parse tza (dateTime s) = Some t
                    ∧ getFullYear tza t = fullYear year
                    ∧ getMonth tza t = month ∧ getDate tza t = i)).
  { intros i Hi.
    pose proof (Date_ymd_fields tza year month i Hm Hi) as (F1 & F2 & F3).
    rewrite elem_of_daySurgeries.
    destruct (Date_parse tza (dateTime s)) as [t |].
    - rewrite sameDay_true, F1, F2, F3. split.
      + intros (? & ? & ? & ?). split; [done |]. by exists t.
      + intros (? & t' & [= <-] & ? & ? & ?). done.
    - split; [by intros [_ ?] |]. by intros (_ & t' & [=] & _). }
  split.
  - intros k cell Hk.
    apply calendarGrid_lookup in Hk. fold year month lead in Hk.
    destruct Hk as [[Hk ->] | [Hk ->]].
    + split; [by intros ?%elem_of_nil |].
      intros (_ & t & _ & _ & _ & Heq).
      pose proof (getDate_le_31 tza t). lia.
    + rewrite Hcell by lia. split.
      * intros (? & t & ? & ? & ? & ?). split; [done |]. exists t.
        repeat (split; [done |]). lia.
      * intros (? & t & ? & ? & ? & ?). split; [done |]. exists t.
        repeat (split; [done |]). lia.
  - intros t Hin Hp Hy Hmo.
    pose proof (getDate_range tza t) as Hd. rewrite Hy, Hmo in Hd.
    exists (Some (Date_ymd tza year month (getDate tza t))). split.
    + apply calendarGrid_lookup. fold year month lead. right.
      split; [lia |]. do 2 f_equal. lia.
    + apply Hcell; [done |]. split; [done |]. by exists t.
Qed.

Lemma daySurgeries_cell_witness :
  let s := exampleSurgery "a" "2024-02-15T09:30" in
  ∃ cell, calendarGrid 0 (Date_ymd 0 2024 1 1) !! 18%nat = Some cell
          ∧ s ∈ daySurgeries 0 [s] cell.
Proof.
  intros s.
  pose proof (daySurgeries_cell 0 (Date_ymd 0 2024 1 1) [s] s) as [_ H].
  apply (H (Date_ymd 0 2024 1 15 + 34200000)).
  - apply list_elem_of_here.
  - vm_compute. reflexivity.
  - vm_compute. reflexivity.
  - vm_compute. reflexivity.
Defined.

End DayCells.

Section Collection.
Import LocalStore.

(** X6.  Saving in the local-storage variant is an insert-or-replace by
    id: the saved event is in the collection afterwards; when the id was
    there the length is unchanged, otherwise the event is appended; an
    event with another id stays at its position; unique ids stay unique
    and the saved event is then the only one with its id; saving the
    same event again changes nothing. *)
Theorem handleSaveSurgery_upsert (surgery : Surgery) (prev : list Surgery) :
  let next := handleSaveSurgery surgery prev in
  surgery ∈ next
  ∧ (id surgery ∈ id <$> prev → length next = length prev)
  ∧ (id surgery ∉ id <$> prev → next = prev ++ [surgery])
  ∧ (∀ (j : nat) s, prev !! j = Some s → id s ≠ id surgery → next !! j = Some s)
  ∧ (NoDup (id <$> prev) →
       NoDup (id <$> next) ∧ ∀ s, s ∈ next → id s = id surgery → s = surgery)
  ∧ handleSaveSurgery surgery next = next.
Proof.
  intros next.
  destruct (list_find (λ s, id s = id surgery) prev) as [[i x] |] eqn:Hf.
  - assert (Hn : next = <[i:=surgery]> prev).
    { unfold next, handleSaveSurgery. by rewrite Hf. }
    clearbody next. subst next.
    apply list_find_Some in Hf as (Hi & Hx & Hbefore).
    assert (Hlt : (i < length prev)%nat) by (by eapply lookup_lt_Some).
    assert (Hids : id <$> <[i:=surgery]> prev = id <$> prev).
    { rewrite list_fmap_insert. apply list_insert_id.
      by rewrite list_lookup_fmap, Hi, <- Hx. }
    split; [by apply list_elem_of_insert |].
    split; [intros _; apply length_insert |].
    split.
    { intros Hnot. exfalso. apply Hnot. rewrite <- Hx.
      apply list_elem_of_fmap_2. by eapply list_elem_of_lookup_2. }
    split.
    { intros j s Hj Hs. rewrite list_lookup_insert_ne; [done |].
      intros ->. congruence. }
    split.
    { intros Hnd. rewrite Hids. split; [done |].
      intros s Hs Hid. apply list_elem_of_lookup_1 in Hs as [j Hj].
      destruct (decide (i = j)) as [<- | Hne].
      - rewrite list_lookup_insert_eq in Hj by done. congruence.
      - rewrite list_lookup_insert_ne in Hj by done.
        exfalso. apply Hne. eapply NoDup_lookup; [exact Hnd | |].
        + by rewrite list_lookup_fmap, Hi.
        + rewrite list_lookup_fmap, Hj. simpl. congruence. }
    unfold handleSaveSurgery.
    assert (Hf' : list_find (λ s, id s = id surgery) (<[i:=surgery]> prev)
                  = Some (i, surgery)).
    { apply list_find_Some. split; [by apply list_lookup_insert_eq |].
      split; [done |]. intros j y Hj Hji.
      rewrite list_lookup_insert_ne in Hj by lia. by eapply Hbefore. }
    rewrite Hf'. apply list_insert_insert_eq.
  - assert (Hn : next = prev ++ [surgery]).
    { unfold next, handleSaveSurgery. by rewrite Hf. }
    clearbody next. subst next.
    apply list_find_None in Hf.
    assert (Hnot : id surgery ∉ id <$> prev).
    { intros (s & Hs & Hin)%list_elem_of_fmap.
      rewrite Forall_forall in Hf. by apply (Hf s). }
    split; [apply elem_of_app; right; apply list_elem_of_here |].
    split; [done |]. split; [done |].
    split; [intros j s Hj _; by apply lookup_app_l_Some |].
    split.
    { intros Hnd. split.
      - rewrite fmap_app. apply NoDup_app. split; [done |].
        split; [| apply NoDup_singleton].
        intros y Hy Hy'. apply list_elem_of_singleton in Hy'. by subst.
      - intros s Hs Hid. apply elem_of_app in Hs as [Hs | Hs].
        + exfalso. apply Hnot. rewrite <- Hid. by apply list_elem_of_fmap_2.
        + by apply list_elem_of_singleton in Hs. }
    unfold handleSaveSurgery.
    assert (Hf' : list_find (λ s, id s = id surgery) (prev ++ [surgery])
                  = Some (length prev, surgery)).
    { apply list_find_Some. split.
      - rewrite lookup_app_r by lia. by rewrite Nat.sub_diag.
      - split; [done |]. intros j y Hj Hlt.
        rewrite lookup_app_l in Hj by done.
        rewrite Forall_forall in Hf. apply Hf. by eapply list_elem_of_lookup_2. }
    rewrite Hf'.
    replace (length prev) with (length prev + 0)%nat at 1 by lia.
    by rewrite insert_app_r.
Qed.

Lemma handleSaveSurgery_upsert_witness :
  let a := exampleSurgery "a" "2024-02-15T09:30" in
  let b := exampleSurgery "b" "2024-02-16T09:30" in
  let a' := exampleSurgery "a" "2024-03-01T08:00" in
  NoDup (id <$> handleSaveSurgery a' [a; b])
  ∧ ∀ s, s ∈ handleSaveSurgery a' [a; b] → id s = id a' → s = a'.
Proof.
  intros a b a'.
  apply (handleSaveSurgery_upsert a' [a; b]).
  apply (bool_decide_unpack _). vm_compute. reflexivity.
Defined.

(** X7.  The status update of the local-storage variant: without an
    event of the id the collection is returned as it is, with no toast;
    otherwise one toast is raised, the ids stay in place and, ids being
    unique, each event of the id differs from what it was in its status
    only; of two updates in a row the second one decides. *)
Theorem handleUpdateSurgeryStatus_sets (surgeryId : string)
    (status : SurgeryStatus) (prev : list Surgery) :
  let next := handleUpdateSurgeryStatus surgeryId status prev in
  ((∀ s, s ∈ prev → id s ≠ surgeryId) → next = (prev, []))
  ∧ (surgeryId ∈ id <$> prev → length next.2 = 1%nat)
  ∧ id <$> next.1 = id <$> prev
  ∧ (NoDup (id <$> prev) →
       next.1 = map (fun s => if bool_decide (id s = surgeryId)
                              then set_surgeryStatus status s else s) prev)
  ∧ (∀ status',
       (handleUpdateSurgeryStatus surgeryId status' next.1).1
       = (handleUpdateSurgeryStatus surgeryId status' prev).1).
Proof.
  intros next.
  destruct (List.find (fun s => bool_decide (id s = surgeryId)) prev)
    as [s0 |] eqn:Hf.
  - assert (Hn : next
      = (map (fun s => if bool_decide (id s = surgeryId)
                       then set_surgeryStatus status s0 else s) prev,
         [addToast ("Status da cirurgia de "
                    +:+ patientName (set_surgeryStatus status s0)
                    +:+ " atualizado para " +:+ statusName status +:+ ".")
                   success])).
    { unfold next, handleUpdateSurgeryStatus. by rewrite Hf. }
    clearbody next. subst next.
    pose proof (find_some _ _ Hf) as [Hin Hid].
    apply list_elem_of_In in Hin. apply bool_decide_eq_true in Hid.
    cbn [fst snd].
    split.
    { intros Hnone. exfalso. by apply (Hnone s0). }
    split; [done |].
    split.
    { rewrite <- list_fmap_compose. apply list_fmap_ext. intros _ s _. simpl.
      case_bool_decide; [| done]. simpl. congruence. }
    split.
    { intros Hnd. apply map_ext_in. intros s Hs%list_elem_of_In.
      case_bool_decide as Hs'; [| done].
      f_equal. symmetry. apply (NoDup_id_eq prev); [done | done | done | congruence]. }
    intros status'. unfold handleUpdateSurgeryStatus.
    rewrite (local_find_map prev surgeryId s0 (set_surgeryStatus status s0) Hf Hid).
    rewrite Hf. cbn [fst]. rewrite map_map. apply map_ext. intros s.
    destruct (bool_decide (id s = surgeryId)) eqn:Hs; [| by rewrite Hs].
    by rewrite bool_decide_eq_true_2.
  - assert (Hn : next = (prev, [])).
    { unfold next, handleUpdateSurgeryStatus. by rewrite Hf. }
    clearbody next. subst next. cbn [fst snd].
    assert (Hnone : ∀ s, s ∈ prev → id s ≠ surgeryId).
    { intros s Hs. apply list_elem_of_In in Hs.
      pose proof (find_none _ _ Hf s Hs) as Hb. simpl in Hb.
      by apply bool_decide_eq_false in Hb. }
    split; [done |].
    split.
    { intros (s & Hs & Hin)%list_elem_of_fmap. exfalso. by apply (Hnone s). }
    split; [done |].
    split; [| done].
    intros _. rewrite <- (map_id prev) at 1. apply map_ext_in.
    intros s Hs%list_elem_of_In. by rewrite bool_decide_eq_false_2 by auto.
Qed.

Lemma handleUpdateSurgeryStatus_sets_witness :
  let a := exampleSurgery "a" "2024-02-15T09:30" in
  let b := exampleSurgery "b" "2024-02-16T09:30" in
  (handleUpdateSurgeryStatus "b" Realizada [a; b]).1
  = [a; set_surgeryStatus Realizada b].
Proof.
  intros a b.
  pose proof (handleUpdateSurgeryStatus_sets "b" Realizada [a; b])
    as (_ & _ & _ & H & _).
  rewrite H; [reflexivity |].
  apply (bool_decide_unpack _). vm_compute. reflexivity.
Defined.

End Collection.

(** * The date of the form *)

Section FormDate.
Import JsDate SurgeryModal EditForm.

(** A date and a time to the minute, written with digits, denote local
    time. *)
Lemma parse_minuteDigits tza Y M D h mi :
  0 ≤ Y ≤ 9999 → 1 ≤ M ≤ 12 → 1 ≤ D ≤ 31 → 0 ≤ h ≤ 23 → 0 ≤ mi ≤ 59 →
  Date_parse tza (fourDigits Y +:+ "-" +:+ twoDigits M +:+ "-"
                  +:+ twoDigits D +:+ "T" +:+ twoDigits h +:+ ":" +:+ twoDigits mi)
  = Some (UTC tza (MakeDate (MakeDay Y (M - 1) D) (MakeTime h mi 0 0))).
Proof.
  intros HY HM HD Hh Hmi.
  rewrite ?append_cons, ?append_nil.
  unfold Date_parse.
  rewrite parseYear_fourDigits by lia. cbn [mbind option_bind].
  unfold parseMonthDay.
  rewrite digits_twoDigits by lia. cbn [mbind option_bind].
  rewrite digits_twoDigits by lia. cbn [mbind option_bind].
  unfold parseTime.
  rewrite digits_twoDigits by lia. cbn [mbind option_bind].
  rewrite digits_twoDigits_end by lia. cbn [mbind option_bind parseSeconds parseOffset].
  rewrite (proj2 (Z.leb_le h 23)), (proj2 (Z.leb_le mi 59)) by lia.
  change (0 <=? 59) with true. cbn [andb orb mbind option_bind parseOffset].
  rewrite (proj2 (Z.leb_le 1 M)), (proj2 (Z.leb_le M 12)),
    (proj2 (Z.leb_le 1 D)), (proj2 (Z.leb_le D 31)) by lia.
  reflexivity.
Qed.

(** The first sixteen characters of [toISOString]: the date and the time
    to the minute, in UTC. *)
Lemma slice16_toISOString t :
  0 ≤ YearFromTime t ≤ 9999 →
  slice16 (toISOString t)
  = fourDigits (YearFromTime t) +:+ "-" +:+ twoDigits (MonthFromTime t + 1) +:+ "-"
    +:+ twoDigits (DateFromTime t) +:+ "T" +:+ twoDigits (HourFromTime t) +:+ ":"
    +:+ twoDigits (MinFromTime t).
Proof.
  intros HY. unfold toISOString, isoYear.
  rewrite (proj2 (Z.leb_le 0 (YearFromTime t))),
    (proj2 (Z.leb_le (YearFromTime t) 9999)) by lia.
  cbn [andb].
  pose proof (MonthFromTime_range t). pose proof (DateFromTime_range t).
  pose proof (DaysInMonth_range (YearFromTime t) _ (MonthFromTime_range t)).
  pose proof (HourFromTime_range t). pose proof (MinFromTime_range t).
  pose proof (SecFromTime_range t).
  rewrite pad4_fourDigits by lia. unfold pad0.
  rewrite !pad2_twoDigits by lia.
  unfold fourDigits, twoDigits.
  rewrite ?append_cons, ?append_nil. reflexivity.
Qed.

Lemma minute_floor t :
  MakeDate (MakeDay (YearFromTime t) (MonthFromTime t) (DateFromTime t))
           (MakeTime (HourFromTime t) (MinFromTime t) 0 0)
  = t - t mod msPerMinute.
Proof.
  rewrite MakeDay_civil.
  unfold MakeDate, MakeTime, Day, HourFromTime, MinFromTime, msPerDay, msPerHour,
    msPerMinute, msPerSecond. dlia.
Qed.

(** X8.  Opening an event of the four-state variant in the form and
    saving it unchanged: the form gets the UTC date and time to the
    minute, and the save reads them as local time.  So a timestamp that
    denotes the instant [t] (UTC year 0 to 9999) is stored back as the
    instant [t] cut to the minute and moved by the zone offset; it is
    stored back as the same instant only in a zone without offset (offsets
    being whole minutes) and for a whole minute.  An empty or missing timestamp stays missing, and
    a timestamp that is no date makes the opening throw. *)
Theorem openAndSave_shift (tza : Z) (s : string) (t : Z) :
  s ≠ "" → Date_parse tza s = Some t → 0 ≤ YearFromTime t ≤ 9999 →
  formDateTime tza (Some s)
  = Value (Some (fourDigits (YearFromTime t) +:+ "-"
                 +:+ twoDigits (MonthFromTime t + 1) +:+ "-"
                 +:+ twoDigits (DateFromTime t) +:+ "T"
                 +:+ twoDigits (HourFromTime t) +:+ ":" +:+ twoDigits (MinFromTime t)))
  ∧ openAndSave tza (Some s)
    = Value (Some (toISOString (t - t mod msPerMinute - tza)))
  ∧ (tza mod msPerMinute = 0 →
       (t - t mod msPerMinute - tza = t ↔ tza = 0 ∧ t mod msPerMinute = 0))
  ∧ openAndSave tza None = Value None
  ∧ openAndSave tza (Some "") = Value None
  ∧ (∀ s', s' ≠ "" → Date_parse tza s' = None → openAndSave tza (Some s') = RangeError).
Proof.
  intros Hs Hp HY.
  assert (Hform : formDateTime tza (Some s)
                  = Value (Some (slice16 (toISOString t)))).
  { unfold formDateTime, truthy. rewrite bool_decide_eq_false_2 by done.
    cbn [negb Date_of]. by rewrite Hp. }
  split; [by rewrite Hform, slice16_toISOString |].
  split.
  { unfold openAndSave. rewrite Hform, slice16_toISOString by done.
    unfold dateTimeUTC, truthy.
    rewrite bool_decide_eq_false_2 by (unfold fourDigits; discriminate).
    cbn [negb Date_of].
    pose proof (MonthFromTime_range t). pose proof (DateFromTime_range t).
    pose proof (DaysInMonth_range (YearFromTime t) _ (MonthFromTime_range t)).
    pose proof (HourFromTime_range t). pose proof (MinFromTime_range t).
    rewrite parse_minuteDigits by lia.
    replace (MonthFromTime t + 1 - 1) with (MonthFromTime t) by lia.
    rewrite minute_floor. reflexivity. }
  split.
  { unfold msPerMinute. dlia. }
  split; [reflexivity |]. split; [reflexivity |].
  intros s' Hs' Hp'. unfold openAndSave, formDateTime, truthy.
  rewrite bool_decide_eq_false_2 by done. cbn [negb Date_of]. by rewrite Hp'.
Qed.

(** An event stored for 13:00 UTC, opened and saved three hours west of
    Greenwich, is stored for 16:00 UTC. *)
Lemma openAndSave_shift_witness :
  openAndSave (-10800000) (Some "2024-03-15T13:00:00.000Z")
  = Value (Some "2024-03-15T16:00:00.000Z").
Proof.
  pose proof (openAndSave_shift (-10800000) "2024-03-15T13:00:00.000Z"
                1710507600000) as (_ & H & _).
  - discriminate.
  - vm_compute. reflexivity.
  - vm_compute. split; discriminate.
  - rewrite H. vm_compute. reflexivity.
Defined.



End FormDate.

(** * The period of the reports *)

Section ReportPeriod.
Import JsDate ReportsView Spec.

(** A date written with digits and nothing else denotes midnight UTC. *)
Lemma parse_dateDigits tza Y M D :
  0 ≤ Y ≤ 9999 → 1 ≤ M ≤ 12 → 1 ≤ D ≤ 31 →
  Date_parse tza (fourDigits Y +:+ "-" +:+ twoDigits M +:+ "-" +:+ twoDigits D)
  = Some (MakeDate (MakeDay Y (M - 1) D) 0).
Proof.
  intros HY HM HD.
  rewrite ?append_cons, ?append_nil.
  unfold Date_parse.
  rewrite parseYear_fourDigits by lia. cbn [mbind option_bind].
  unfold parseMonthDay.
  rewrite digits_twoDigits by lia. cbn [mbind option_bind].
  rewrite digits_twoDigits_end by lia.
  cbn [mbind option_bind parseTime parseOffset].
  rewrite (proj2 (Z.leb_le 1 M)), (proj2 (Z.leb_le M 12)),
    (proj2 (Z.leb_le 1 D)), (proj2 (Z.leb_le D 31)) by lia.
  reflexivity.
Qed.

Lemma dateString_nonempty Y M D :
  fourDigits Y +:+ "-" +:+ twoDigits M +:+ "-" +:+ twoDigits D ≠ "".
Proof. unfold fourDigits. rewrite append_cons. discriminate. Qed.

(** The end of the local day of [b]. *)
Lemma endOfDay_le tza b t :
  (setHours4 tza b 23 59 59 999 <? t) = false
  ↔ Day (LocalTime tza t) ≤ Day (LocalTime tza b).
Proof.
  rewrite Z.ltb_ge.
  unfold setHours4, UTC, MakeDate, MakeTime, Day, LocalTime, msPerDay, msPerHour,
    msPerMinute, msPerSecond. dlia.
Qed.

Lemma keep_guards tza filters s :
  keep tza filters s = true
  ↔ negb (bool_decide (startDate filters = ""))
      && dateLt (Date_of tza (date_time s)) (Date_parse tza (startDate filters)) = false
    ∧ negb (bool_decide (endDate filters = ""))
      && dateLt ((fun t => setHours4 tza t 23 59 59 999)
                   <$> Date_parse tza (endDate filters))
                (Date_of tza (date_time s)) = false
    ∧ doctorMatches (doctorId filters) s.
Proof.
  unfold keep. rewrite <- guard_doctor.
  repeat match goal with
         | |- context [if ?b then false else _] => destruct b
         end; intuition congruence.
Qed.

(** X10.  The period filter of the reports.  With both bounds empty, or
    for an event whose timestamp is no date, only the doctor counts.
    With both bounds set to dates, an event at the instant [t] is kept
    exactly when [t] is not before the instant of the start, the local
    day of [t] is not after the local day of the instant of the end, and
    the doctor matches. *)
Theorem reports_keep_period (tza : Z) (filters : Filters) (s : Surgery) :
  (startDate filters = "" → endDate filters = "" →
     (keep tza filters s = true ↔ doctorMatches (doctorId filters) s))
  ∧ (Date_of tza (date_time s) = None →
     (keep tza filters s = true ↔ doctorMatches (doctorId filters) s))
  ∧ (∀ t a b,
       Date_of tza (date_time s) = Some t →
       startDate filters ≠ "" → endDate filters ≠ "" →
       Date_parse tza (startDate filters) = Some a →
       Date_parse tza (endDate filters) = Some b →
       (keep tza filters s = true
        ↔ a ≤ t ∧ Day (LocalTime tza t) ≤ Day (LocalTime tza b)
          ∧ doctorMatches (doctorId filters) s)).
Proof.
  split.
  { intros Hs He. rewrite keep_guards, Hs, He.
    rewrite bool_decide_eq_true_2 by done. cbn [negb andb]. tauto. }
  split.
  { intros Hd. rewrite keep_guards, Hd. unfold dateLt.
    destruct (_ <$> _); rewrite !andb_false_r; tauto. }
  intros t a b Hd Hs He Ha Hb. rewrite keep_guards, Hd, Ha, Hb.
  rewrite !bool_decide_eq_false_2 by done.
  cbn [negb andb fmap option_fmap option_map dateLt].
  rewrite endOfDay_le, Z.ltb_ge. tauto.
Qed.

Lemma reports_keep_period_witness :
  let filters := {| startDate := "2024-03-01"; endDate := "2024-03-31";
                    doctorId := "all" |} in
  keep 0 filters (exampleSurgery 1 (Some "2024-03-10T14:30:00Z") Realizada ∅) = true.
Proof.
  intros filters.
  pose proof (reports_keep_period 0 filters
                (exampleSurgery 1 (Some "2024-03-10T14:30:00Z") Realizada ∅))
    as (_ & _ & H).
  apply (H 1710081000000 1709251200000 1711843200000);
    [vm_compute; reflexivity | discriminate | discriminate
    | vm_compute; reflexivity | vm_compute; reflexivity |].
  split; [lia |]. split; [vm_compute; discriminate |]. by left.
Defined.

(** X11.  The bounds of the period as the date inputs give them,
    YYYY-MM-DD, are midnight UTC.  So the lower bound compares the UTC
    day of the event, the upper bound its local day, and the upper bound
    is the day written in a zone at or east of Greenwich and the day
    before it in a zone west of Greenwich: there an event on the last
    day of the period is left out. *)
Theorem reports_keep_date_inputs (tza : Z) (filters : Filters) (s : Surgery)
    (t Y1 M1 D1 Y2 M2 D2 : Z) :
  - msPerDay < tza < msPerDay →
  startDate filters = fourDigits Y1 +:+ "-" +:+ twoDigits M1 +:+ "-" +:+ twoDigits D1 →
  endDate filters = fourDigits Y2 +:+ "-" +:+ twoDigits M2 +:+ "-" +:+ twoDigits D2 →
  0 ≤ Y1 ≤ 9999 → 1 ≤ M1 ≤ 12 → 1 ≤ D1 ≤ 31 →
  0 ≤ Y2 ≤ 9999 → 1 ≤ M2 ≤ 12 → 1 ≤ D2 ≤ 31 →
  Date_of tza (date_time s) = Some t →
  (keep tza filters s = true
   ↔ MakeDay Y1 (M1 - 1) D1 ≤ Day t
     ∧ Day (LocalTime tza t) ≤ MakeDay Y2 (M2 - 1) D2 + (if tza <? 0 then -1 else 0)
     ∧ doctorMatches (doctorId filters) s).
Proof.
  intros Htza Hs He HY1 HM1 HD1 HY2 HM2 HD2 Hd.
  rewrite keep_guards, Hd, Hs, He, !parse_dateDigits by done.
  rewrite !bool_decide_eq_false_2 by apply dateString_nonempty.
  cbn [negb andb fmap option_fmap option_map dateLt].
  rewrite endOfDay_le, Z.ltb_ge.
  assert (H1 : MakeDate (MakeDay Y1 (M1 - 1) D1) 0 ≤ t ↔ MakeDay Y1 (M1 - 1) D1 ≤ Day t).
  { unfold MakeDate, Day, msPerDay. dlia. }
  assert (H2 : Day (LocalTime tza (MakeDate (MakeDay Y2 (M2 - 1) D2) 0))
               = MakeDay Y2 (M2 - 1) D2 + (if tza <? 0 then -1 else 0)).
  { unfold MakeDate, Day, LocalTime, msPerDay in *.
    destruct (Z.ltb_spec tza 0); dlia. }
  rewrite H1, H2. tauto.
Qed.

(** Three hours west of Greenwich, a period that ends on 15 March leaves
    out an event at nine in the morning, local time, of 15 March. *)
Lemma reports_keep_date_inputs_witness :
  let filters := {| startDate := "2024-03-01"; endDate := "2024-03-15";
                    doctorId := "all" |} in
  let s := exampleSurgery 1 (Some "2024-03-15T12:00:00Z") Realizada ∅ in
  getDate (-10800000) 1710504000000 = 15 ∧ getHours (-10800000) 1710504000000 = 9
  ∧ keep (-10800000) filters s = false.
Proof.
  intros filters s.
  split; [reflexivity |]. split; [reflexivity |].
  apply not_true_iff_false. intros Hk.
  apply (reports_keep_date_inputs (-10800000) filters s 1710504000000
           2024 3 1 2024 3 15) in Hk;
    [| unfold msPerDay; lia | reflexivity | reflexivity | lia | lia | lia | lia | lia | lia
     | vm_compute; reflexivity].
  destruct Hk as (_ & Hk & _). vm_compute in Hk. by apply Hk.
Defined.

Lemma hospitalMap_fold_other (l : list Hospital) (m : gmap Z string) k :
  (∀ h, h ∈ l → hospital_key h ≠ k) →
  foldl (fun m h => <[hospital_key h := hospital_name h]> m) m l !! k = m !! k.
Proof.
  revert m. induction l as [| h l IH]; intros m Hl; cbn [foldl]; [done |].
  rewrite IH by (intros h' Hh'; by apply Hl, list_elem_of_further).
  apply lookup_insert_ne, Hl, list_elem_of_here.
Qed.

(** The name given to a key is that of the last hospital with the key. *)
Lemma hospitalMap_last l1 h l2 :
  (∀ h', h' ∈ l2 → hospital_key h' ≠ hospital_key h) →
  hospitalMap (l1 ++ h :: l2) !! hospital_key h = Some (hospital_name h).
Proof.
  intros Hl2. unfold hospitalMap. rewrite foldl_app. cbn [foldl].
  rewrite hospitalMap_fold_other by done. apply lookup_insert_eq.
Qed.

Lemma hospitalMap_none l k :
  (∀ h, h ∈ l → hospital_key h ≠ k) → hospitalMap l !! k = None.
Proof.
  intros Hl. unfold hospitalMap. by rewrite hospitalMap_fold_other, lookup_empty.
Qed.

(** X12.  The chart of the events per hospital counts every filtered
    event once, under the label of its hospital: the name of the last
    hospital of the list that has the id of the event, 'Desconhecido'
    when that name is empty or no hospital has the id.  The count of a
    label is the number of filtered events with that label, a label in
    the chart has at least one event, the counts add up to the number
    of filtered events, and the completed events are no more than the
    filtered ones. *)
Theorem reports_counts (filteredSurgeries : list Surgery)
    (hospitals : list Hospital) (users : list Doctor) :
  let r := reports filteredSurgeries hospitals users in
  (∀ label,
     default 0 (surgeriesByHospital r !! label)
     = Z.of_nat (length (List.filter
                           (fun s => bool_decide (hospitalLabel hospitals s = label))
                           filteredSurgeries)))
  ∧ (∀ s l1 h l2,
       hospitals = l1 ++ h :: l2 → hospital_key h = hospital_id s →
       (∀ h', h' ∈ l2 → hospital_key h' ≠ hospital_id s) →
       hospitalLabel hospitals s
       = if bool_decide (hospital_name h = "") then "Desconhecido"
         else hospital_name h)
  ∧ (∀ s, (∀ h, h ∈ hospitals → hospital_key h ≠ hospital_id s) →
          hospitalLabel hospitals s = "Desconhecido")
  ∧ (∀ label n, surgeriesByHospital r !! label = Some n → 1 ≤ n)
  ∧ sumZ (map_to_list (surgeriesByHospital r)).*2 = Z.of_nat (totalSurgeries r)
  ∧ (realizedSurgeriesCount r ≤ totalSurgeries r)%nat.
Proof.
  intros r. unfold r, reports.
  cbn [surgeriesByHospital totalSurgeries realizedSurgeriesCount].
  assert (Hcount : ∀ l acc label,
    default 0 (foldl (fun acc s => bump acc (hospitalLabel hospitals s) 1) acc l
               !! label)
    = default 0 (acc !! label)
      + Z.of_nat (length (List.filter
                            (fun s => bool_decide (hospitalLabel hospitals s = label)) l))).
  { induction l as [| s l IH]; intros acc label; cbn [foldl List.filter].
    - simpl. lia.
    - rewrite IH, lookup_bump. case_bool_decide; cbn [length]; lia. }
  assert (Hpos : ∀ l (acc : gmap string Z),
    (∀ label n, acc !! label = Some n → 1 ≤ n) →
    ∀ label n,
      foldl (fun acc s => bump acc (hospitalLabel hospitals s) 1) acc l !! label
      = Some n → 1 ≤ n).
  { induction l as [| s l IH]; intros acc Hacc label n; cbn [foldl]; [apply Hacc |].
    apply IH. intros label' n'. unfold bump.
    destruct (decide (hospitalLabel hospitals s = label')) as [<- | Hne].
    - rewrite lookup_insert_eq. intros [= <-].
      destruct (acc !! hospitalLabel hospitals s) as [m |] eqn:Hm; simpl; [| lia].
      pose proof (Hacc _ _ Hm). lia.
    - rewrite lookup_insert_ne by done. apply Hacc. }
  assert (Hsum : ∀ l acc,
    sumZ (map_to_list
            (foldl (fun acc s => bump acc (hospitalLabel hospitals s) 1) acc l)).*2
    = sumZ (map_to_list acc).*2 + Z.of_nat (length l)).
  { induction l as [| s l IH]; intros acc; cbn [foldl length]; [lia |].
    rewrite IH, sumValues_bump. lia. }
  split.
  { intros label. rewrite Hcount, lookup_empty. simpl. lia. }
  split.
  { intros s l1 h l2 -> Hk Hl2. unfold hospitalLabel. rewrite <- Hk in *.
    by rewrite hospitalMap_last. }
  split.
  { intros s Hnone. unfold hospitalLabel. by rewrite hospitalMap_none. }
  split.
  { apply Hpos. intros label n. by rewrite lookup_empty. }
  split.
  { rewrite Hsum, map_to_list_empty, fmap_nil, sumZ_nil. lia. }
  unfold realized. apply filter_length_le.
Qed.

Lemma reports_counts_witness :
  let e1 := exampleSolo 1 (Some "2024-03-10T14:30:00Z") Realizada ∅ in
  let e2 := exampleSurgery 2 None Solicitada ∅ in
  let central := {| hospital_key := 1; hospital_name := "Central" |} in
  let r := reports [e1; e2] [central] [] in
  hospitalLabel [central] e1 = "Central"
  ∧ surgeriesByHospital r !! "Central" = Some 2
  ∧ sumZ (map_to_list (surgeriesByHospital r)).*2 = 2.
Proof.
  intros e1 e2 central r.
  pose proof (reports_counts [e1; e2] [central] []) as (_ & Hl & _ & _ & H & _).
  split.
  { apply (Hl e1 [] central []); [reflexivity | reflexivity |].
    intros h' Hh'. inversion Hh'. }
  split; [vm_compute; reflexivity |].
  etrans; [exact H | reflexivity].
Defined.
End ReportPeriod.

(** * The views of the four-state variant *)

Section Views.
Import CalendarView Spec.

Lemma requests_keep authFilter s :
  RequestsView.keep authFilter s = true
  ↔ (surgery_status s = Solicitada ∨ surgery_status s = Agendada)
    ∧ selected authFilter (authName (auth_status s)).
Proof.
  unfold RequestsView.keep. rewrite <- guard_selected.
  destruct (surgery_status s);
    repeat match goal with
           | |- context [bool_decide (?a ≠ ?a)] =>
               rewrite (bool_decide_eq_false_2 (a ≠ a)) by (intros H; by apply H)
           | |- context [bool_decide (?a ≠ ?b)] =>
               rewrite (bool_decide_eq_true_2 (a ≠ b)) by discriminate
           end; cbn [andb];
    destruct (bool_decide (authFilter ≠ "all")
              && bool_decide (authName (auth_status s) ≠ authFilter));
    intuition congruence.
Qed.

(** X13.  The two lists of the four-state variant divide the events by
    their status: the list of requests has the events requested or
    scheduled whose authorization is the one selected; the calendar has
    the events scheduled or completed; so a cancelled event is in
    neither, whatever the filters; an event in both is scheduled; and
    with no filter set every event that is not cancelled is in one of
    them. *)
Theorem views_by_status (surgeries : list Surgery) (s : Surgery)
    (doctorFilter : string) (advancedFilters : AdvancedFilters)
    (authFilter : string) :
  let calendar := filteredSurgeries4 surgeries doctorFilter advancedFilters in
  let requests := RequestsView.filteredSurgeries surgeries authFilter in
  (s ∈ requests
   ↔ s ∈ surgeries ∧ (surgery_status s = Solicitada ∨ surgery_status s = Agendada)
     ∧ selected authFilter (authName (auth_status s)))
  ∧ (surgery_status s = Cancelada → (s ∉ calendar) ∧ (s ∉ requests))
  ∧ (s ∈ calendar → s ∈ requests → surgery_status s = Agendada)
  ∧ (s ∈ surgeries → surgery_status s ≠ Cancelada →
     s ∈ filteredSurgeries4 surgeries "all" noFilters
     ∨ s ∈ RequestsView.filteredSurgeries surgeries "all").
Proof.
  intros calendar requests.
  assert (Hc : ∀ d a, s ∈ filteredSurgeries4 surgeries d a
    ↔ s ∈ surgeries ∧ (surgery_status s = Agendada ∨ surgery_status s = Realizada)
      ∧ passes d a s).
  { intros d a. unfold filteredSurgeries4.
    by rewrite list_elem_of_In, filter_In, <- list_elem_of_In, keep4_passes. }
  assert (Hr : ∀ a, s ∈ RequestsView.filteredSurgeries surgeries a
    ↔ s ∈ surgeries ∧ (surgery_status s = Solicitada ∨ surgery_status s = Agendada)
      ∧ selected a (authName (auth_status s))).
  { intros a. unfold RequestsView.filteredSurgeries.
    by rewrite list_elem_of_In, filter_In, <- list_elem_of_In, requests_keep. }
  split; [apply Hr |].
  split.
  { intros Hs. unfold calendar, requests. rewrite Hc, Hr, Hs.
    split; intros (_ & [? | ?] & _); discriminate. }
  split.
  { unfold calendar, requests. rewrite Hc, Hr.
    intros (_ & [? | H1] & _) (_ & [H2 | ?] & _); congruence. }
  intros Hin Hs. rewrite Hc, Hr.
  assert (Hp : passes "all" noFilters s).
  { unfold passes, doctorMatches, selected. simpl. tauto. }
  assert (Hsel : selected "all" (authName (auth_status s))) by (by left).
  destruct (surgery_status s) eqn:Hst; [right | left | left | done]; tauto.
Qed.

Lemma views_by_status_witness :
  let s := exampleSurgery 1 (Some "2024-03-10T14:30:00Z") Cancelada ∅ in
  (s ∉ filteredSurgeries4 [s] "all" noFilters)
  ∧ (s ∉ RequestsView.filteredSurgeries [s] "all").
Proof.
  intros s.
  apply (views_by_status [s] s "all" noFilters "all"). reflexivity.
Defined.

End Views.

(** * A participant unticked and ticked again *)

Section Retick.
Import SurgeryModal.

Lemma uniqueDoctorIds_feeEffect {R} (formData : FormData R) i :
  i ∈ uniqueDoctorIds (feeEffect formData) ↔ i ∈ uniqueDoctorIds formData.
Proof. by rewrite !elem_of_uniqueDoctorIds. Qed.

(** The effect run again without a change of the team changes nothing. *)
Lemma feeEffect_settled {R} (formData : FormData R) i :
  fees (feeEffect (feeEffect formData)) !! i = fees (feeEffect formData) !! i.
Proof.
  rewrite (feeEffect_lookup (feeEffect formData)), feeEffect_lookup.
  destruct (decide (i ∈ uniqueDoctorIds formData)) as [Hi | Hi].
  - rewrite !bool_decide_eq_true_2; [done | done | by apply uniqueDoctorIds_feeEffect].
  - rewrite !bool_decide_eq_false_2; [done | done | by rewrite uniqueDoctorIds_feeEffect].
Qed.

(** X14.  Unticking a participant and ticking the same doctor again,
    the fee effect running after each change: the doctor is a
    participant again and the fee is 0, whatever it was; the entry of
    everyone else is what the effect gives without the two clicks. *)
Theorem retick_resets_fee {R} (formData : FormData R) (doctorId : string) :
  doctorId ≠ "" → doctorId ≠ main_surgeon_id formData →
  doctorId ∈ participating_ids formData →
  let unticked := feeEffect (handleCheckboxChange doctorId formData) in
  let reticked := feeEffect (handleCheckboxChange doctorId unticked) in
  (doctorId ∉ participating_ids unticked)
  ∧ fees unticked !! doctorId = None
  ∧ doctorId ∈ participating_ids reticked
  ∧ fees reticked !! doctorId = Some 0
  ∧ (∀ i, i ≠ doctorId → fees reticked !! i = fees (feeEffect formData) !! i).
Proof.
  intros Hne Hmain Hin unticked reticked.
  pose proof (feeEffect_after_toggle formData doctorId Hne Hmain) as [H1 H1'].
  rewrite (bool_decide_eq_true_2 _ Hin) in H1.
  assert (Hout : doctorId ∉ participating_ids unticked).
  { unfold unticked, feeEffect, feeUpdater, handleCheckboxChange.
    cbn [participating_ids]. rewrite (bool_decide_eq_true_2 _ Hin).
    rewrite list_elem_of_In, filter_In, bool_decide_eq_true. tauto. }
  assert (Hmain' : doctorId ≠ main_surgeon_id unticked) by exact Hmain.
  pose proof (feeEffect_after_toggle unticked doctorId Hne Hmain') as [H2 H2'].
  rewrite (bool_decide_eq_false_2 _ Hout) in H2.
  split; [exact Hout |]. split; [exact H1 |].
  split.
  { unfold reticked, feeEffect, feeUpdater, handleCheckboxChange.
    cbn [participating_ids]. rewrite (bool_decide_eq_false_2 _ Hout).
    apply elem_of_app. right. apply list_elem_of_here. }
  split.
  { unfold reticked. rewrite H2. fold unticked in H1. by rewrite H1. }
  intros i Hi. unfold reticked. rewrite (H2' i Hi).
  unfold unticked. rewrite feeEffect_settled. by apply H1'.
Qed.

Lemma retick_resets_fee_witness :
  let formData := {| main_surgeon_id := "A"; participating_ids := ["B"];
                     fees := <["A" := 1000]> {["B" := 400]}; rest := () |} in
  fees (feeEffect (handleCheckboxChange "B"
          (feeEffect (handleCheckboxChange "B" formData)))) !! "B" = Some 0.
Proof.
  intros formData.
  apply (retick_resets_fee formData "B").
  - discriminate.
  - discriminate.
  - apply list_elem_of_here.
Defined.

End Retick.

(** * The sanitized name and the change feed, applied twice *)

Section Twice.
Import Upload App.

Lemma stripMarks_allowed s :
  Forall (fun c => isAllowed c = true) s → stripMarks s = s.
Proof.
  induction 1 as [| c l Hc _ IH]; [done |]. unfold stripMarks in *. cbn [List.filter].
  by rewrite (isAllowed_not_mark c Hc), IH.
Qed.

Lemma replaceDisallowed_id s :
  Forall (fun c => isAllowed c = true) s → replaceDisallowed s = s.
Proof.
  induction 1 as [| c l Hc _ IH]; [done |]. unfold replaceDisallowed in *.
  cbn [map]. by rewrite Hc, IH.
Qed.

Lemma decomposePt_low c : 0 ≤ c < 192 → decomposePt c = [c].
Proof.
  intros Hc.
  assert (H : match decomposePt c with [x] => x =? c | _ => false end = true).
  { apply (forallb_seqZ
             (fun k => match decomposePt k with [x] => x =? k | _ => false end) 0 192);
      [vm_compute; reflexivity | lia]. }
  destruct (decomposePt c) as [| x [| ? ?]]; [done | | done].
  apply Z.eqb_eq in H. by subst.
Qed.

Lemma normalizePt_allowed s :
  Forall (fun c => isAllowed c = true) s → normalizePt s = s.
Proof.
  induction 1 as [| c l Hc _ IH]; [done |]. unfold normalizePt in *.
  cbn [map concat]. rewrite IH, decomposePt_low; [done |].
  unfold isAllowed in Hc.
  rewrite ?orb_true_iff, ?andb_true_iff, ?Z.leb_le, ?Z.eqb_eq in Hc. lia.
Qed.

(** X15.  When the decomposition leaves a name of allowed characters as
    it is (as the canonical decomposition does for ASCII), a sanitized
    name is sanitized to itself; and a sanitized name is never longer
    than the decomposed name. *)
Theorem sanitizeFilename_idempotent (normalizeNFD : ustring → ustring)
    (name : ustring) :
  (∀ s, Forall (fun c => isAllowed c = true) s → normalizeNFD s = s) →
  sanitizeFilename normalizeNFD (sanitizeFilename normalizeNFD name)
  = sanitizeFilename normalizeNFD name
  ∧ (length (sanitizeFilename normalizeNFD name) ≤ length (normalizeNFD name))%nat.
Proof.
  intros Hnfd.
  pose proof (sanitizeFilename_allowed normalizeNFD name) as Ha.
  split.
  - rewrite (sanitizeFilename_steps normalizeNFD (sanitizeFilename normalizeNFD name)).
    by rewrite (Hnfd _ Ha), (stripMarks_allowed _ Ha), (replaceDisallowed_id _ Ha).
  - rewrite sanitizeFilename_steps. unfold replaceDisallowed, stripMarks.
    rewrite length_map. apply filter_length_le.
Qed.

Lemma sanitizeFilename_idempotent_witness :
  sanitizeFilename normalizePt (sanitizeFilename normalizePt acao_png)
  = codes "acao_1.png".
Proof.
  pose proof (sanitizeFilename_idempotent normalizePt acao_png normalizePt_allowed)
    as [H _].
  rewrite H. vm_compute. reflexivity.
Defined.

(** X16.  Messages of the change feed delivered twice or out of turn:
    an update and a delete applied twice are as applied once; the update
    of an id that is not in the collection changes nothing; after the
    insert of a new id, the delete of that id gives the collection back;
    a delete after an update of the same id is as the delete alone. *)
Theorem postgres_changes_again (current : list Surgery) (new : Surgery) (old_id : Z) :
  postgres_changes (UPDATE new) (postgres_changes (UPDATE new) current)
  = postgres_changes (UPDATE new) current
  ∧ postgres_changes (DELETE old_id) (postgres_changes (DELETE old_id) current)
    = postgres_changes (DELETE old_id) current
  ∧ (id new ∉ map id current → postgres_changes (UPDATE new) current = current)
  ∧ (id new ∉ map id current →
       postgres_changes (DELETE (id new)) (postgres_changes (INSERT new) current)
       = current)
  ∧ postgres_changes (DELETE (id new)) (postgres_changes (UPDATE new) current)
    = postgres_changes (DELETE (id new)) current.
Proof.
  assert (Hfresh : id new ∉ map id current →
                   ∀ s, s ∈ current → id s ≠ id new).
  { intros Hn s Hs Heq. apply Hn. rewrite <- Heq.
    apply list_elem_of_In, in_map, list_elem_of_In, Hs. }
  cbn [postgres_changes]. split.
  { rewrite map_map. apply map_ext. intros s.
    destruct (bool_decide (id s = id new)) eqn:Hs; [| by rewrite Hs].
    by rewrite bool_decide_eq_true_2. }
  split.
  { clear Hfresh. induction current as [| s l IH]; [done |]. cbn [List.filter].
    destruct (bool_decide (id s ≠ old_id)) eqn:Hs; [| apply IH].
    cbn [List.filter]. rewrite Hs. f_equal. apply IH. }
  split.
  { intros Hn. rewrite <- (map_id current) at 2. apply map_ext_in.
    intros s Hs%list_elem_of_In.
    by rewrite bool_decide_eq_false_2 by (by apply Hfresh). }
  split.
  { intros Hn. rewrite filter_app_bool. cbn [List.filter].
    rewrite (bool_decide_eq_false_2 (id new ≠ id new)) by (intros H; by apply H).
    rewrite app_nil_r. specialize (Hfresh Hn). clear Hn.
    induction current as [| s l IH]; [done |]. cbn [List.filter].
    rewrite bool_decide_eq_true_2 by (apply Hfresh, list_elem_of_here).
    f_equal. apply IH. intros s' Hs'. by apply Hfresh, list_elem_of_further. }
  clear Hfresh. induction current as [| s l IH]; [done |]. cbn [map List.filter].
  destruct (decide (id s = id new)) as [He | He].
  - rewrite (bool_decide_eq_true_2 _ He).
    rewrite !(bool_decide_eq_false_2 (_ ≠ _)) by (intros H; by apply H). apply IH.
  - rewrite (bool_decide_eq_false_2 _ He).
    rewrite !(bool_decide_eq_true_2 (id s ≠ id new)) by done. f_equal. apply IH.
Qed.

Lemma postgres_changes_again_witness :
  let s := exampleSurgery 1 (Some "2024-03-10T14:30:00Z") Agendada ∅ in
  let s' := exampleSurgery 2 None Solicitada ∅ in
  postgres_changes (DELETE 2) (postgres_changes (INSERT s') [s]) = [s].
Proof.
  intros s s'.
  pose proof (postgres_changes_again [s] s' 0) as (_ & _ & _ & H & _).
  apply H. simpl. rewrite list_elem_of_singleton. discriminate.
Defined.

End Twice.

(** * The month revenue of the dashboard *)

Section Dashboard.
Import JsDate ReportsView DashboardView Spec.

Lemma midnight_fields tza now :
  getFullYear tza (midnight tza now) = getFullYear tza now
  ∧ getMonth tza (midnight tza now) = getMonth tza now
  ∧ getDate tza (midnight tza now) = getDate tza now.
Proof.
  unfold getFullYear, getMonth, getDate, midnight, setHours4.
  rewrite LocalTime_UTC, MakeTime_0.
  apply civil_same_day, Day_MakeDate. unfold msPerDay. lia.
Qed.

Lemma inCurrentMonth_sameMonth tza now s :
  inCurrentMonth tza now s = sameMonth tza now s && completed s.
Proof.
  unfold inCurrentMonth, sameMonth, completed. cbv zeta.
  destruct (midnight_fields tza now) as (-> & -> & _).
  destruct (Date_of tza (date_time s)) as [t |];
    destruct (bool_decide (surgery_status s = Realizada)); simpl;
    rewrite ?andb_true_r, ?andb_false_r; reflexivity.
Qed.

Lemma filter_filter_bool {A} (f g : A → bool) (l : list A) :
  List.filter f (List.filter g l) = List.filter (fun x => g x && f x) l.
Proof.
  induction l as [| x l IH]; [done |]. cbn [List.filter].
  destruct (g x); cbn [List.filter andb]; [destruct (f x) |]; by rewrite IH.
Qed.

(** X17.  The month revenue of the dashboard is the total revenue of
    the reports for the events whose date is in the local month of the
    moment it is computed: the fees of the completed events of that
    month; it is the same for two moments of the same local month and
    year; an event whose timestamp is no date adds nothing. *)
Theorem monthRevenue_reports (tza now : Z) (surgeries : list Surgery)
    (hospitals : list Hospital) (users : list Doctor) :
  monthRevenue tza now surgeries
  = totalRevenue (reports (List.filter (sameMonth tza now) surgeries) hospitals users)
  ∧ monthRevenue tza now surgeries
    = sumZ (map feeTotal
              (List.filter (fun s => sameMonth tza now s && completed s) surgeries))
  ∧ (∀ now', getFullYear tza now' = getFullYear tza now →
             getMonth tza now' = getMonth tza now →
             monthRevenue tza now' surgeries = monthRevenue tza now surgeries)
  ∧ (∀ s, Date_of tza (date_time s) = None →
          monthRevenue tza now (surgeries ++ [s]) = monthRevenue tza now surgeries).
Proof.
  assert (Hsum : ∀ n l, monthRevenue tza n l
    = sumZ (map feeTotal (List.filter (fun s => sameMonth tza n s && completed s) l))).
  { intros n l. unfold monthRevenue. rewrite totalRevenue_fold.
    rewrite (filter_ext _ _ (inCurrentMonth_sameMonth tza n)). lia. }
  split.
  { rewrite Hsum, totalRevenue_sum, filter_filter_bool. reflexivity. }
  split; [apply Hsum |].
  split.
  { intros now' Hy Hm. rewrite !Hsum. do 2 f_equal.
    apply filter_ext. intros s. unfold sameMonth. by rewrite Hy, Hm. }
  intros s Hs. rewrite !Hsum, filter_app_bool. cbn [List.filter].
  unfold sameMonth at 2. rewrite Hs. cbn [andb]. by rewrite app_nil_r.
Qed.

Lemma monthRevenue_reports_witness :
  let e1 := exampleSolo 1 (Some "2024-03-10T14:30:00Z") Realizada {["A" := 1000]} in
  let e2 := exampleSolo 2 (Some "2024-04-02T09:00:00Z") Realizada {["A" := 500]} in
  monthRevenue 0 1711000000000 [e1; e2] = 1000
  ∧ monthRevenue 0 1709300000000 [e1; e2] = monthRevenue 0 1711000000000 [e1; e2].
Proof.
  intros e1 e2. split; [vm_compute; reflexivity |].
  pose proof (monthRevenue_reports 0 1711000000000 [e1; e2] [] []) as (_ & _ & H & _).
  apply H; vm_compute; reflexivity.
Defined.

End Dashboard.
